(** * BovineScanner: the scan-stage state machine of [src/components/BovineScanner.tsx]

    The component keeps six [useState] cells and talks to three pieces of its
    environment: the toaster, the browser's object-URL registry and the timer
    queue.  The handlers are embedded as computations in a small state monad
    over that world.  A handler is a closure created at render time: it reads
    the state cells of the render that created it and writes through the
    setters.  The render-time snapshot is therefore an explicit argument of
    every handler that reads a cell. *)

From Stdlib Require Import ZArith QArith Qround String Ascii List Bool Lia Lqa.
From Stdlib Require Import DecimalString DecimalPos DecimalN.
Import ListNotations.

Open Scope string_scope.
Open Scope Z_scope.

(** ** JavaScript values that occur in the component *)

Module Js.

(** The numbers of the component are small integers, exactly representable,
    together with the [NaN] that arithmetic on [undefined] produces. *)
Inductive number : Set :=
| Num (z : Z)
| NaN.

(** [a + b] where [a] was read from a property that may be missing:
    [undefined + b] is [NaN]. *)
Definition plus (a : option number) (b : Z) : number :=
  match a with
  | Some (Num x) => Num (x + b)
  | _ => NaN
  end.

(** [Math.max] and [Math.min] return [NaN] as soon as one argument is. *)
Definition Math_max (a b : number) : number :=
  match a, b with
  | Num x, Num y => Num (Z.max x y)
  | _, _ => NaN
  end.

Definition Math_min (a b : number) : number :=
  match a, b with
  | Num x, Num y => Num (Z.min x y)
  | _, _ => NaN
  end.

(** [Math.round]: the nearest integer, halves towards plus infinity. *)
Definition Math_round (x : Q) : Z := Qfloor (x + (1 # 2)).

(** [String.prototype.startsWith]. *)
Definition startsWith (s p : string) : bool := String.prefix p s.

(** Truthiness of a string: only the empty string is falsy. *)
Definition truthy_string (s : string) : bool :=
  match s with
  | EmptyString => false
  | String _ _ => true
  end.

(** Template-literal conversions. *)
Definition string_of_Z (z : Z) : string := NilZero.string_of_int (Z.to_int z).

Definition string_of_number (n : number) : string :=
  match n with
  | Num z => string_of_Z z
  | NaN => "NaN"
  end.

Definition interpolate {A : Type} (show : A -> string) (v : option A) : string :=
  match v with
  | Some a => show a
  | None => "undefined"
  end.

(** Bounds on a number; [NaN] satisfies none. *)
Definition at_least (lo : Z) (n : number) : Prop :=
  match n with
  | Num z => lo <= z
  | NaN => False
  end.

Definition within (lo hi : Z) (n : number) : Prop :=
  match n with
  | Num z => lo <= z <= hi
  | NaN => False
  end.

End Js.

Import Js.
Coercion Num : Z >-> number.

(** ** Data model (lines 9-32 of the source) *)

(** [interface AnalysisResult].  The interface is erased at run time: the
    object the timer callback builds always has the three numeric fields it
    sets itself, possibly [NaN], while [breed] and [confidence] are copied by
    the spread and are missing when the spread object has none. *)
Record AnalysisResult : Set := {
  height : number;
  length : number;
  score : number;
  breed : option string;
  confidence : option number
}.

Inductive ScanStage : Set := upload | analyzing | results.

Record BreedOption : Set := { value : string; label : string }.

Definition breeds : list BreedOption :=
  [ {| value := "sahiwal"; label := "Sahiwal Cattle" |};
    {| value := "murrah"; label := "Murrah Buffalo" |};
    {| value := "gir"; label := "Gir Cattle" |};
    {| value := "holstein"; label := "Holstein Friesian" |} ].

Definition sahiwal : AnalysisResult :=
  {| height := 142; length := 155; score := 87;
     breed := Some "Sahiwal"; confidence := Some (Num 94) |}.

Definition murrah : AnalysisResult :=
  {| height := 135; length := 148; score := 92;
     breed := Some "Murrah Buffalo"; confidence := Some (Num 96) |}.

Definition gir : AnalysisResult :=
  {| height := 138; length := 150; score := 85;
     breed := Some "Gir"; confidence := Some (Num 89) |}.

Definition holstein : AnalysisResult :=
  {| height := 145; length := 160; score := 90;
     breed := Some "Holstein Friesian"; confidence := Some (Num 92) |}.

(** The own properties of the object literal [sampleResults], in order. *)
Definition sampleResults : list (string * AnalysisResult) :=
  [ ("sahiwal", sahiwal); ("murrah", murrah); ("gir", gir); ("holstein", holstein) ].

(** [sampleResults] is an ordinary object, so a property read that finds no
    own property continues on [Object.prototype].  Its members are the
    built-in methods, each a function with an arity in its own [length]
    property, and the accessor [__proto__], which yields the prototype
    object itself.  None of them has enumerable own properties. *)
Inductive Member : Set :=
| Function (arity : Z)
| PlainObject.

Definition Object_prototype : list (string * Member) :=
  [ ("constructor", Function 1);
    ("hasOwnProperty", Function 1);
    ("isPrototypeOf", Function 1);
    ("propertyIsEnumerable", Function 1);
    ("toLocaleString", Function 0);
    ("toString", Function 0);
    ("valueOf", Function 0);
    ("__defineGetter__", Function 2);
    ("__defineSetter__", Function 2);
    ("__lookupGetter__", Function 1);
    ("__lookupSetter__", Function 1);
    ("__proto__", PlainObject) ].

Fixpoint assoc {A : Type} (key : string) (props : list (string * A)) : option A :=
  match props with
  | [] => None
  | (k, v) :: rest => if String.eqb key k then Some v else assoc key rest
  end.

(** What the expression [sampleResults[key]] evaluates to. *)
Inductive Value : Set :=
| undefined
| entry (r : AnalysisResult)
| inherited (m : Member).

Definition get (key : string) : Value :=
  match assoc key sampleResults with
  | Some r => entry r
  | None =>
      match assoc key Object_prototype with
      | Some m => inherited m
      | None => undefined
      end
  end.

(** Objects are truthy, [undefined] is not. *)
Definition truthy (v : Value) : bool :=
  match v with
  | undefined => false
  | _ => true
  end.

(** [a || b] *)
Definition or_else (a b : Value) : Value := if truthy a then a else b.

(** Property reads on the looked-up object. *)
Definition get_height (v : Value) : option number :=
  match v with
  | entry r => Some (height r)
  | _ => None
  end.

Definition get_length (v : Value) : option number :=
  match v with
  | entry r => Some (length r)
  | inherited (Function arity) => Some (Num arity)
  | _ => None
  end.

Definition get_score (v : Value) : option number :=
  match v with
  | entry r => Some (score r)
  | _ => None
  end.

(** The two properties that only the spread [...result] can contribute. *)
Definition spread_breed (v : Value) : option string :=
  match v with
  | entry r => breed r
  | _ => None
  end.

Definition spread_confidence (v : Value) : option number :=
  match v with
  | entry r => confidence r
  | _ => None
  end.

(** [File], as far as the component looks at it. *)
Record File : Set := {
  name : string;
  type : string;
  size : Z
}.

Inductive Variant : Set := default | destructive.

Record Toast : Set := {
  title : string;
  description : string;
  variant : Variant
}.

(** The six [useState] cells. *)
Record State : Set := {
  selectedBreed : string;
  selectedFile : option File;
  previewUrl : string;
  scanStage : ScanStage;
  analysisResult : option AnalysisResult;
  isDragging : bool
}.

(** The component together with the environment its handlers act on. *)
Record World : Set := {
  cells : State;
  toasts : list Toast;            (* notifications shown, newest first *)
  timers : list string;           (* pending timeouts, oldest first: the
                                     [selectedBreed] each callback closed over *)
  minted : N;                     (* object URLs handed out so far *)
  created : list string;          (* calls of [URL.createObjectURL], newest first *)
  revoked : list string           (* calls of [URL.revokeObjectURL], newest first *)
}.

Definition initialState : State :=
  {| selectedBreed := ""; selectedFile := None; previewUrl := "";
     scanStage := upload; analysisResult := None; isDragging := false |}.

Definition initialWorld : World :=
  {| cells := initialState; toasts := []; timers := [];
     minted := 0%N; created := []; revoked := [] |}.

(** ** The handler monad *)

Definition M (A : Type) : Type := World -> A * World.

Definition ret {A : Type} (a : A) : M A := fun w => (a, w).

Definition bind {A B : Type} (m : M A) (k : A -> M B) : M B :=
  fun w => let (a, w') := m w in k a w'.

Declare Scope handler_scope.
Delimit Scope handler_scope with handler.
Notation "x <- m ;; k" := (bind m (fun x => k))
  (at level 61, m at next level, right associativity) : handler_scope.
Notation "m ;; k" := (bind m (fun _ => k))
  (at level 61, right associativity) : handler_scope.
Open Scope handler_scope.

(** The world a handler leaves behind. *)
Definition exec {A : Type} (m : M A) (w : World) : World := snd (m w).

(** *** State setters *)

Definition modify (f : State -> State) : M unit :=
  fun w =>
    (tt, {| cells := f (cells w); toasts := toasts w; timers := timers w;
            minted := minted w; created := created w; revoked := revoked w |}).

Definition setSelectedBreed (v : string) : M unit :=
  modify (fun s =>
    {| selectedBreed := v; selectedFile := selectedFile s;
       previewUrl := previewUrl s; scanStage := scanStage s;
       analysisResult := analysisResult s; isDragging := isDragging s |}).

Definition setSelectedFile (v : option File) : M unit :=
  modify (fun s =>
    {| selectedBreed := selectedBreed s; selectedFile := v;
       previewUrl := previewUrl s; scanStage := scanStage s;
       analysisResult := analysisResult s; isDragging := isDragging s |}).

Definition setPreviewUrl (v : string) : M unit :=
  modify (fun s =>
    {| selectedBreed := selectedBreed s; selectedFile := selectedFile s;
       previewUrl := v; scanStage := scanStage s;
       analysisResult := analysisResult s; isDragging := isDragging s |}).

Definition setScanStage (v : ScanStage) : M unit :=
  modify (fun s =>
    {| selectedBreed := selectedBreed s; selectedFile := selectedFile s;
       previewUrl := previewUrl s; scanStage := v;
       analysisResult := analysisResult s; isDragging := isDragging s |}).

Definition setAnalysisResult (v : option AnalysisResult) : M unit :=
  modify (fun s =>
    {| selectedBreed := selectedBreed s; selectedFile := selectedFile s;
       previewUrl := previewUrl s; scanStage := scanStage s;
       analysisResult := v; isDragging := isDragging s |}).

Definition setIsDragging (v : bool) : M unit :=
  modify (fun s =>
    {| selectedBreed := selectedBreed s; selectedFile := selectedFile s;
       previewUrl := previewUrl s; scanStage := scanStage s;
       analysisResult := analysisResult s; isDragging := v |}).

(** *** Environment *)

Definition toast (t : Toast) : M unit :=
  fun w =>
    (tt, {| cells := cells w; toasts := t :: toasts w; timers := timers w;
            minted := minted w; created := created w; revoked := revoked w |}).

(** The browser mints a fresh URL per call; its text only matters in being
    non-empty and new. *)
Definition blob (n : N) : string := "blob:" ++ NilZero.string_of_uint (N.to_uint n).

Definition URL_createObjectURL (file : File) : M string :=
  fun w =>
    let url := blob (minted w) in
    (url, {| cells := cells w; toasts := toasts w; timers := timers w;
             minted := N.succ (minted w); created := url :: created w;
             revoked := revoked w |}).

Definition URL_revokeObjectURL (url : string) : M unit :=
  fun w =>
    (tt, {| cells := cells w; toasts := toasts w; timers := timers w;
            minted := minted w; created := created w;
            revoked := url :: revoked w |}).

(** [setTimeout(callback, 3000)]: every timeout of the component has the same
    delay, so they fire in the order they were set.  The callback is
    determined by the [selectedBreed] it closed over. *)
Definition setTimeout (closedOver : string) : M unit :=
  fun w =>
    (tt, {| cells := cells w; toasts := toasts w;
            timers := timers w ++ [closedOver];
            minted := minted w; created := created w; revoked := revoked w |}).

(** ** The handlers (lines 44-151) *)

Definition handleFileSelect (file : File) : M unit :=
  if negb (startsWith (type file) "image/") then
    toast {| title := "Invalid File Type";
             description := "Please select an image file (JPG, PNG, WEBP)";
             variant := destructive |}
  else if size file >? 10 * 1024 * 1024 then
    toast {| title := "File Too Large";
             description := "Please select an image smaller than 10MB";
             variant := destructive |}
  else
    setSelectedFile (Some file) ;;
    url <- URL_createObjectURL file ;;
    setPreviewUrl url ;;
    toast {| title := "Image Uploaded";
             description := "Ready for analysis";
             variant := default |}.

Definition handleDrop (files : list File) : M unit :=
  setIsDragging false ;;
  match files with
  | file :: _ => handleFileSelect file
  | [] => ret tt
  end.

Definition handleDragOver : M unit := setIsDragging true.

Definition handleDragLeave : M unit := setIsDragging false.

Definition is_null {A : Type} (v : option A) : bool :=
  match v with
  | None => true
  | Some _ => false
  end.

Definition startAnalysis (render : State) : M unit :=
  if is_null (selectedFile render) || negb (truthy_string (selectedBreed render))
  then ret tt
  else
    setScanStage analyzing ;;
    setTimeout (selectedBreed render).

(** [Math.random()] draws a number [r] with [0 <= r < 1].  The arithmetic on
    the draw is taken exactly, on rationals; the rounding of doubles is
    monotone and leaves -5 and 5 fixed, so it yields the same range. *)
Definition variation (r : Q) : Z := Math_round ((r - (1 # 2)) * inject_Z 10).

(** [sampleResults[selectedBreed] || sampleResults.sahiwal] *)
Definition lookup (selectedBreed : string) : Value :=
  or_else (get selectedBreed) (get "sahiwal").

(** The object literal of the timer callback.  The three draws are consumed
    in the order the literal evaluates its properties. *)
Definition build (result : Value) (r1 r2 r3 : Q) : AnalysisResult :=
  {| height := Math_max 120 (plus (get_height result) (variation r1));
     length := Math_max 140 (plus (get_length result) (variation r2));
     score := Math_max 70 (Math_min 100 (plus (get_score result) (variation r3)));
     breed := spread_breed result;
     confidence := spread_confidence result |}.

Definition finalResult (selectedBreed : string) (r1 r2 r3 : Q) : AnalysisResult :=
  build (lookup selectedBreed) r1 r2 r3.

Definition analysisCallback (selectedBreed : string) (r1 r2 r3 : Q) : M unit :=
  let final := finalResult selectedBreed r1 r2 r3 in
  setAnalysisResult (Some final) ;;
  setScanStage results ;;
  toast {| title := "Analysis Complete";
           description :=
             interpolate (fun s => s) (breed final) ++ " analysis finished with "
             ++ interpolate string_of_number (confidence final) ++ "% confidence";
           variant := default |}.

Definition resetScanner (render : State) : M unit :=
  setScanStage upload ;;
  setSelectedFile None ;;
  setPreviewUrl "" ;;
  setAnalysisResult None ;;
  setSelectedBreed "" ;;
  if truthy_string (previewUrl render)
  then URL_revokeObjectURL (previewUrl render)
  else ret tt.

Definition saveResults (render : State) : M unit :=
  if is_null (analysisResult render) then ret tt
  else
    toast {| title := "Results Saved";
             description := "Analysis saved to Bovine Performance Analytics system";
             variant := default |}.

Definition getScoreColor (score : Z) : string :=
  if score >=? 90 then "text-success"
  else if score >=? 80 then "text-primary"
  else if score >=? 70 then "text-yellow-600"
  else "text-destructive".

Definition getScoreLabel (score : Z) : string :=
  if score >=? 90 then "Excellent"
  else if score >=? 80 then "Good"
  else if score >=? 70 then "Average"
  else "Poor".

(** ** Events: what the rendered view lets happen (lines 153-382) *)

Inductive Event : Type :=
| ValueChange (value : string)        (* the breed [Select] *)
| InputChange (files : list File)     (* the hidden file input *)
| DropFiles (files : list File)       (* [onDrop] of the upload zone *)
| DragOver
| DragLeave
| ClickStart                          (* "Start AI Analysis" *)
| Timeout (r1 r2 r3 : Q)              (* the oldest timeout fires, with its draws *)
| ClickNewScan                        (* "New Scan" *)
| ClickSave.                          (* "Save to BPA System" *)

Definition stage_eqb (a b : ScanStage) : bool :=
  match a, b with
  | upload, upload | analyzing, analyzing | results, results => true
  | _, _ => false
  end.

Definition is_draw (r : Q) : bool := Qle_bool 0 r && negb (Qle_bool 1 r).

Definition is_breed (v : string) : bool :=
  existsb (fun b => String.eqb v (value b)) breeds.

(** Each stage renders its own controls, and the start button is disabled
    while the breed or the file is missing. *)
Definition offered (e : Event) (w : World) : bool :=
  let s := cells w in
  match e with
  | ValueChange v => stage_eqb (scanStage s) upload && is_breed v
  | InputChange _ | DropFiles _ | DragOver | DragLeave =>
      stage_eqb (scanStage s) upload
  | ClickStart =>
      stage_eqb (scanStage s) upload
      && negb (is_null (selectedFile s) || negb (truthy_string (selectedBreed s)))
  | Timeout r1 r2 r3 =>
      negb (is_null (hd_error (timers w)))
      && is_draw r1 && is_draw r2 && is_draw r3
  | ClickNewScan | ClickSave =>
      stage_eqb (scanStage s) results && negb (is_null (analysisResult s))
  end.

Definition dequeue (w : World) : World :=
  {| cells := cells w; toasts := toasts w; timers := tl (timers w);
     minted := minted w; created := created w; revoked := revoked w |}.

(** Running the handler bound to an event.  The handler is the closure of
    the current render, so it reads [cells w].  The event loop runs one
    handler to completion before it takes the next event. *)
Definition handle (e : Event) (w : World) : World :=
  match e with
  | ValueChange v => exec (setSelectedBreed v) w
  | InputChange files =>
      match files with
      | file :: _ => exec (handleFileSelect file) w
      | [] => w
      end
  | DropFiles files => exec (handleDrop files) w
  | DragOver => exec handleDragOver w
  | DragLeave => exec handleDragLeave w
  | ClickStart => exec (startAnalysis (cells w)) w
  | Timeout r1 r2 r3 =>
      match timers w with
      | closedOver :: _ => exec (analysisCallback closedOver r1 r2 r3) (dequeue w)
      | [] => w
      end
  | ClickNewScan => exec (resetScanner (cells w)) w
  | ClickSave => exec (saveResults (cells w)) w
  end.

Inductive step (w : World) : World -> Prop :=
| step_event (e : Event) : offered e w = true -> step w (handle e w).

Inductive reachable : World -> Prop :=
| reachable_initial : reachable initialWorld
| reachable_step w w' : reachable w -> step w w' -> reachable w'.

(** Running a list of events from a world, skipping those not offered. *)
Fixpoint run (es : list Event) (w : World) : World :=
  match es with
  | [] => w
  | e :: rest => run rest (if offered e w then handle e w else w)
  end.

(** Object URLs that were created and never revoked. *)
Definition leaked (w : World) : list string :=
  filter (fun url => negb (existsb (String.eqb url) (revoked w))) (created w).

(** How often a URL was revoked. *)
Definition revocations (url : string) (w : World) : nat :=
  List.length (filter (String.eqb url) (revoked w)).

(** ** Notions the properties are stated with *)

Definition invalidFileType : Toast :=
  {| title := "Invalid File Type";
     description := "Please select an image file (JPG, PNG, WEBP)";
     variant := destructive |}.

Definition fileTooLarge : Toast :=
  {| title := "File Too Large";
     description := "Please select an image smaller than 10MB";
     variant := destructive |}.

(** A rejection: one more notification, and nothing else differs. *)
Definition rejected_with (t : Toast) (w w' : World) : Prop :=
  cells w' = cells w
  /\ toasts w' = t :: toasts w
  /\ timers w' = timers w
  /\ minted w' = minted w
  /\ created w' = created w
  /\ revoked w' = revoked w.


(** The breed cell is empty or holds an offered breed, and so does every
    pending timer callback. *)
Definition breeds_known (w : World) : Prop :=
  (selectedBreed (cells w) = "" \/ is_breed (selectedBreed (cells w)) = true)
  /\ Forall (fun key => is_breed key = true) (timers w).

(** There is a result exactly in the Results stage. *)
Definition result_iff_results (w : World) : Prop :=
  analysisResult (cells w) <> None <-> scanStage (cells w) = results.

(** ** Sample inputs *)

Definition cow : File :=
  {| name := "cow.png"; type := "image/png"; size := 2048 |}.

Definition calf : File :=
  {| name := "calf.jpg"; type := "image/jpeg"; size := 4096 |}.

Definition pdf : File :=
  {| name := "herd.pdf"; type := "application/pdf"; size := 52000 |}.

Definition hugePng : File :=
  {| name := "herd.png"; type := "image/png"; size := 10 * 1024 * 1024 + 1 |}.

Definition scanned : World :=
  run [InputChange [cow]; ValueChange "holstein"; ClickStart;
       Timeout (1 # 4) (1 # 2) (3 # 4)] initialWorld.

Definition scannedResult : AnalysisResult :=
  {| height := 143; length := 160; score := 93;
     breed := Some "Holstein Friesian"; confidence := Some (Num 92) |}.

Definition underway : World :=
  run [ValueChange "murrah"; DragOver; DropFiles [calf; cow]; ClickStart] initialWorld.

Definition replaced : World :=
  run [InputChange [cow]; DropFiles [pdf]; InputChange [calf]] initialWorld.

Definition rescanned : World :=
  run [ClickNewScan; InputChange [calf]; ValueChange "gir"; ClickStart;
       Timeout (1 # 2) (1 # 2) (1 # 2); ClickNewScan] scanned.

(** ** What the view shows (lines 170-379) *)

(** [disabled={!selectedFile || !selectedBreed}] of the start button. *)
Definition startDisabled (s : State) : bool :=
  is_null (selectedFile s) || negb (truthy_string (selectedBreed s)).

(** [breeds.find(b => b.value === selectedBreed)?.label] *)
Definition analyzingLabel (s : State) : option string :=
  option_map label (find (fun b => String.eqb (value b) (selectedBreed s)) breeds).

(** [previewUrl && <img src={previewUrl} />] *)
Definition previewImage (s : State) : option string :=
  if truthy_string (previewUrl s) then Some (previewUrl s) else None.

(** The block under the header.  Each stage guards its own block, and the
    results block also asks for a result; when no guard holds only the
    header is left. *)
Inductive Screen : Set :=
| UploadScreen (image : option string) (disabled : bool)
| AnalyzingScreen (image : option string) (breedLabel : option string)
| ResultsScreen (src : string) (shown : AnalysisResult)
| HeaderOnly.

Definition screen (s : State) : Screen :=
  match scanStage s with
  | upload => UploadScreen (previewImage s) (startDisabled s)
  | analyzing => AnalyzingScreen (previewImage s) (analyzingLabel s)
  | results =>
      match analysisResult s with
      | Some r => ResultsScreen (previewUrl s) r
      | None => HeaderOnly
      end
  end.

(** ** Invariants of the scan cycle and of the preview URLs *)

Definition imageUploaded : Toast :=
  {| title := "Image Uploaded";
     description := "Ready for analysis";
     variant := default |}.

Definition resultsSaved : Toast :=
  {| title := "Results Saved";
     description := "Analysis saved to Bovine Performance Analytics system";
     variant := default |}.

(** The two ways an upload can end, seen from outside: nothing but a toast,
    or the file stored with a freshly minted preview URL. *)
Definition upload_outcome (file : File) (w w' : World) : Prop :=
  selectedBreed (cells w') = selectedBreed (cells w)
  /\ scanStage (cells w') = scanStage (cells w)
  /\ analysisResult (cells w') = analysisResult (cells w)
  /\ timers w' = timers w
  /\ revoked w' = revoked w
  /\ ((selectedFile (cells w') = selectedFile (cells w)
       /\ previewUrl (cells w') = previewUrl (cells w)
       /\ minted w' = minted w
       /\ created w' = created w)
      \/ (selectedFile (cells w') = Some file
          /\ previewUrl (cells w') = blob (minted w)
          /\ minted w' = N.succ (minted w)
          /\ created w' = blob (minted w) :: created w)).

(** A result the timer callback can have built for a breed. *)
Definition built_for (key : string) (r : AnalysisResult) : Prop :=
  exists r1 r2 r3,
    is_draw r1 = true /\ is_draw r2 = true /\ is_draw r3 = true
    /\ r = finalResult key r1 r2 r3.

(** What holds of the cells and the timer queue in each stage. *)
Definition cycle_inv (w : World) : Prop :=
  let s := cells w in
  is_null (selectedFile s) = negb (truthy_string (previewUrl s))
  /\ (selectedBreed s = "" \/ is_breed (selectedBreed s) = true)
  /\ match scanStage s with
     | upload => timers w = [] /\ analysisResult s = None
     | analyzing =>
         timers w = [selectedBreed s] /\ analysisResult s = None
         /\ startDisabled s = false
     | results =>
         timers w = [] /\ startDisabled s = false
         /\ exists r, analysisResult s = Some r /\ built_for (selectedBreed s) r
     end.

(** What holds of the object URLs. *)
Definition urls_inv (w : World) : Prop :=
  (forall url, In url (created w) -> exists k, (k < minted w)%N /\ url = blob k)
  /\ (truthy_string (previewUrl (cells w)) = true ->
      In (previewUrl (cells w)) (created w)
      /\ ~ In (previewUrl (cells w)) (revoked w))
  /\ incl (revoked w) (created w)
  /\ NoDup (revoked w)
  /\ NoDup (created w).

(** ** The jitter in the arithmetic of doubles (line 102) *)

(** The finite doubles are whole multiples of 2^-1074; a number is written
    here as that multiple.  The magnitudes of line 102 stay below 8, far from
    overflow, which is left out. *)
Definition grid : Z := 2 ^ 1074.

(** [a / 2^s] rounded to the nearest whole number, halves to the even one. *)
Definition rne_shift (a s : Z) : Z :=
  let q := a / 2 ^ s in
  match 2 * (a mod 2 ^ s) ?= 2 ^ s with
  | Lt => q
  | Gt => q + 1
  | Eq => if Z.even q then q else q + 1
  end.

(** Rounding to the nearest double: a double keeps 53 significant bits. *)
Definition binary64 (n : Z) : Z :=
  let a := Z.abs n in
  if a <? 2 ^ 53 then n
  else
    let s := Z.log2 a - 52 in
    Z.sgn n * (rne_shift a s * 2 ^ s).

Definition is_double (n : Z) : bool := binary64 n =? n.

(** [Math.round] of a double; the result is a whole number. *)
Definition Math_round_double (n : Z) : Z := (2 * n + grid) / (2 * grid).

(** [Math.round((Math.random() - 0.5) * 10)], each operation rounded. *)
Definition variation_double (r : Z) : Z :=
  Math_round_double (binary64 (binary64 (r - grid / 2) * 10)).

(** What [Math.random] can return: a double from 0 up to, not including, 1. *)
Definition is_double_draw (r : Z) : bool :=
  (0 <=? r) && (r <? grid) && is_double r.

(** The same draw as a rational. *)
Definition Q_of_double (r : Z) : Q := Qmake r (Z.to_pos grid).

(** The double next to 0.95. *)
Definition near_095 : Z := 8556839292003942 * 2 ^ 1021.

(** * Properties *)

(** ** Evaluation helpers *)

Lemma exec_bind {A B : Type} (m : M A) (k : A -> M B) (w : World) :
  exec (bind m k) w = exec (k (fst (m w))) (exec m w).
Proof. unfold exec, bind. destruct (m w); reflexivity. Qed.

Lemma stage_eqb_eq (a b : ScanStage) : stage_eqb a b = true <-> a = b.
Proof. destruct a, b; simpl; split; congruence. Qed.

(** ** The jitter *)

Lemma is_draw_bounds (r : Q) : is_draw r = true -> (0 <= r /\ r < 1)%Q.
Proof.
  unfold is_draw; intros H.
  apply andb_true_iff in H as [Hlo Hhi].
  apply Qle_bool_iff in Hlo.
  apply negb_true_iff in Hhi.
  split; [exact Hlo |].
  apply Qnot_le_lt; intros Hle.
  apply Qle_bool_iff in Hle; congruence.
Qed.

(** Every draw of [Math.random] is turned into a whole number from -5 to 5. *)
Lemma variation_range (r : Q) : is_draw r = true -> -5 <= variation r <= 5.
Proof.
  intros H; apply is_draw_bounds in H as [Hlo Hhi].
  unfold variation, Math_round; split.
  - change (-5) with (Qfloor (-9 # 2)).
    apply Qfloor_resp_le; unfold inject_Z; lra.
  - change 5 with (Qfloor (11 # 2)).
    apply Qfloor_resp_le; unfold inject_Z; lra.
Qed.

(** Both ends of the range occur. *)
Example variation_extremes :
  variation 0 = -5 /\ variation (1 # 2) = 0 /\ variation (19 # 20) = 5.
Proof. repeat split; reflexivity. Qed.

(** The object built from an own entry of the table. *)
Lemma build_entry (base : AnalysisResult) (h l s : Z) (r1 r2 r3 : Q) :
  height base = Num h -> length base = Num l -> score base = Num s ->
  build (entry base) r1 r2 r3 =
  {| height := Num (Z.max 120 (h + variation r1));
     length := Num (Z.max 140 (l + variation r2));
     score := Num (Z.max 70 (Z.min 100 (s + variation r3)));
     breed := breed base;
     confidence := confidence base |}.
Proof.
  intros Hh Hl Hs; unfold build; simpl.
  rewrite Hh, Hl, Hs; reflexivity.
Qed.

(** What the timer callback leaves in the state cells. *)
Lemma analysisCallback_cells (key : string) (r1 r2 r3 : Q) (w : World) :
  cells (exec (analysisCallback key r1 r2 r3) w) =
  {| selectedBreed := selectedBreed (cells w);
     selectedFile := selectedFile (cells w);
     previewUrl := previewUrl (cells w);
     scanStage := results;
     analysisResult := Some (finalResult key r1 r2 r3);
     isDragging := isDragging (cells w) |}.
Proof. reflexivity. Qed.

(** ** Analysis results *)

(** The four own entries of the table have whole-number measurements. *)
Lemma sampleResults_entries (key : string) :
  In key (map fst sampleResults) ->
  exists base h l s,
    lookup key = entry base /\ assoc key sampleResults = Some base
    /\ height base = Num h /\ length base = Num l /\ score base = Num s.
Proof.
  simpl; intros [<- | [<- | [<- | [<- | []]]]].
  - exists sahiwal, 142, 155, 87; repeat split.
  - exists murrah, 135, 148, 92; repeat split.
  - exists gir, 138, 150, 85; repeat split.
  - exists holstein, 145, 160, 90; repeat split.
Qed.

(** C2. For every breed of the static table and every jitter draw, the result
    stored when the timer callback ends the Analyzing stage has a score from
    70 to 100, a height of at least 120 and a length of at least 140. *)
Theorem analysis_result_bounds (key : string) (r1 r2 r3 : Q) (w : World) :
  In key (map fst sampleResults) ->
  exists res,
    analysisResult (cells (exec (analysisCallback key r1 r2 r3) w)) = Some res
    /\ scanStage (cells (exec (analysisCallback key r1 r2 r3) w)) = results
    /\ within 70 100 (score res)
    /\ at_least 120 (height res)
    /\ at_least 140 (length res).
Proof.
  intros Hkey.
  destruct (sampleResults_entries key Hkey) as (base & h & l & s & Hlook & _ & Hh & Hl & Hs).
  exists (finalResult key r1 r2 r3).
  rewrite analysisCallback_cells.
  split; [reflexivity | split; [reflexivity |]].
  unfold finalResult; rewrite Hlook, (build_entry base h l s) by assumption.
  cbn [height length score]; cbv [within at_least].
  split; [lia | split; lia].
Qed.

Lemma analysis_result_bounds_witness :
  In "gir" (map fst sampleResults)
  /\ exists res,
       analysisResult
         (cells (exec (analysisCallback "gir" (1 # 3) (2 # 3) (9 # 10)) initialWorld))
       = Some res
       /\ scanStage
            (cells (exec (analysisCallback "gir" (1 # 3) (2 # 3) (9 # 10)) initialWorld))
          = results
       /\ within 70 100 (score res)
       /\ at_least 120 (height res)
       /\ at_least 140 (length res).
Proof.
  assert (H : In "gir" (map fst sampleResults)) by (simpl; tauto).
  split; [exact H |].
  exact (analysis_result_bounds "gir" (1 # 3) (2 # 3) (9 # 10) initialWorld H).
Defined.

(** C8. With the breed murrah (baseline 135, 148, 92, 96) every outcome of the
    analysis has a height from 130 to 140, a length from 143 to 153, a score
    from 87 to 97 and the confidence 96. *)
Theorem murrah_outcome (r1 r2 r3 : Q) :
  is_draw r1 = true -> is_draw r2 = true -> is_draw r3 = true ->
  within 130 140 (height (finalResult "murrah" r1 r2 r3))
  /\ within 143 153 (length (finalResult "murrah" r1 r2 r3))
  /\ within 87 97 (score (finalResult "murrah" r1 r2 r3))
  /\ confidence (finalResult "murrah" r1 r2 r3) = Some (Num 96).
Proof.
  intros H1 H2 H3.
  apply variation_range in H1, H2, H3.
  change (finalResult "murrah" r1 r2 r3) with (build (entry murrah) r1 r2 r3).
  rewrite (build_entry murrah 135 148 92) by reflexivity.
  cbn [height length score confidence]; cbv [within].
  split; [lia | split; [lia | split; [lia | reflexivity]]].
Qed.

Lemma murrah_outcome_witness :
  (is_draw 0 = true /\ is_draw (1 # 2) = true /\ is_draw (19 # 20) = true)
  /\ within 130 140 (height (finalResult "murrah" 0 (1 # 2) (19 # 20)))
  /\ within 143 153 (length (finalResult "murrah" 0 (1 # 2) (19 # 20)))
  /\ within 87 97 (score (finalResult "murrah" 0 (1 # 2) (19 # 20)))
  /\ confidence (finalResult "murrah" 0 (1 # 2) (19 # 20)) = Some (Num 96).
Proof.
  split.
  - split; [| split]; reflexivity.
  - apply (murrah_outcome 0 (1 # 2) (19 # 20)); reflexivity.
Defined.

(** The bounds of C8 are reached: the draws 0 and 19/20 give both ends. *)
Example murrah_extremes :
  finalResult "murrah" 0 0 0
  = {| height := 130; length := 143; score := 87;
       breed := Some "Murrah Buffalo"; confidence := Some (Num 96) |}
  /\ finalResult "murrah" (19 # 20) (19 # 20) (19 # 20)
     = {| height := 140; length := 153; score := 97;
          breed := Some "Murrah Buffalo"; confidence := Some (Num 96) |}.
Proof. split; reflexivity. Qed.

(** ** Presentation *)

(** C9. The label of a whole-number score is Excellent from 90 on, Good from
    80 to 89, Average from 70 to 79 and Poor below 70. *)
Theorem getScoreLabel_bands (score : Z) :
  (90 <= score -> getScoreLabel score = "Excellent")
  /\ (80 <= score < 90 -> getScoreLabel score = "Good")
  /\ (70 <= score < 80 -> getScoreLabel score = "Average")
  /\ (score < 70 -> getScoreLabel score = "Poor").
Proof.
  unfold getScoreLabel.
  destruct (Z.geb_spec score 90), (Z.geb_spec score 80), (Z.geb_spec score 70);
    repeat split; intros; try reflexivity; lia.
Qed.

Lemma getScoreLabel_bands_witness :
  getScoreLabel 93 = "Excellent" /\ getScoreLabel 84 = "Good"
  /\ getScoreLabel 70 = "Average" /\ getScoreLabel 12 = "Poor".
Proof.
  split; [| split; [| split]].
  - apply (proj1 (getScoreLabel_bands 93)); lia.
  - apply (proj1 (proj2 (getScoreLabel_bands 84))); lia.
  - apply (proj1 (proj2 (proj2 (getScoreLabel_bands 70)))); lia.
  - apply (proj2 (proj2 (proj2 (getScoreLabel_bands 12)))); lia.
Defined.

(** ** Upload and validation *)

Lemma toast_rejects (t : Toast) (w : World) : rejected_with t w (exec (toast t) w).
Proof. repeat split. Qed.

(** The upload handler never calls [URL.revokeObjectURL]. *)
Lemma handleFileSelect_revokes_nothing (file : File) (w : World) :
  revoked (exec (handleFileSelect file) w) = revoked w.
Proof.
  unfold handleFileSelect.
  destruct (negb (startsWith (type file) "image/")); [reflexivity |].
  destruct (size file >? 10 * 1024 * 1024); reflexivity.
Qed.

(** An accepted upload stores the file and a freshly minted preview URL. *)
Lemma handleFileSelect_accepts (file : File) (w : World) :
  startsWith (type file) "image/" = true ->
  size file <= 10 * 1024 * 1024 ->
  selectedFile (cells (exec (handleFileSelect file) w)) = Some file
  /\ previewUrl (cells (exec (handleFileSelect file) w)) = blob (minted w)
  /\ created (exec (handleFileSelect file) w) = blob (minted w) :: created w
  /\ scanStage (cells (exec (handleFileSelect file) w)) = scanStage (cells w).
Proof.
  intros Htype Hsize; unfold handleFileSelect.
  rewrite Htype; cbn [negb].
  destruct (Z.gtb_spec (size file) (10 * 1024 * 1024)) as [Hgt | _]; [lia |].
  repeat split.
Qed.

(** C4. A file whose MIME type does not start with [image/] is rejected with
    a notification; the stored file, the preview URL and the stage, like
    every other cell, are as before the call, so the Upload stage remains. *)
Theorem non_image_rejected (file : File) (w : World) :
  startsWith (type file) "image/" = false ->
  rejected_with invalidFileType w (exec (handleFileSelect file) w)
  /\ selectedFile (cells (exec (handleFileSelect file) w)) = selectedFile (cells w)
  /\ previewUrl (cells (exec (handleFileSelect file) w)) = previewUrl (cells w)
  /\ scanStage (cells (exec (handleFileSelect file) w)) = scanStage (cells w)
  /\ (scanStage (cells w) = upload ->
      scanStage (cells (exec (handleFileSelect file) w)) = upload).
Proof.
  intros Htype; unfold handleFileSelect; rewrite Htype; cbn [negb].
  split; [apply toast_rejects |].
  split; [reflexivity |].
  split; [reflexivity |].
  split; [reflexivity |].
  intros Hstage; exact Hstage.
Qed.

Lemma non_image_rejected_witness :
  startsWith (type pdf) "image/" = false
  /\ rejected_with invalidFileType initialWorld (exec (handleFileSelect pdf) initialWorld)
  /\ selectedFile (cells (exec (handleFileSelect pdf) initialWorld)) = None
  /\ previewUrl (cells (exec (handleFileSelect pdf) initialWorld)) = ""
  /\ scanStage (cells (exec (handleFileSelect pdf) initialWorld)) = upload.
Proof.
  assert (H : startsWith (type pdf) "image/" = false) by reflexivity.
  destruct (non_image_rejected pdf initialWorld H) as (Hrej & Hfile & Hurl & Hstage & _).
  split; [exact H |].
  split; [exact Hrej |].
  split; [exact Hfile |].
  split; [exact Hurl | exact Hstage].
Defined.

(** C5. A file of more than 10 MiB is rejected whatever its MIME type: the
    file is not stored, no preview URL is created, and apart from the
    notification the world is as before the call. *)
Theorem oversized_rejected (file : File) (w : World) :
  size file > 10 * 1024 * 1024 ->
  exists t,
    variant t = destructive
    /\ rejected_with t w (exec (handleFileSelect file) w)
    /\ selectedFile (cells (exec (handleFileSelect file) w)) = selectedFile (cells w)
    /\ previewUrl (cells (exec (handleFileSelect file) w)) = previewUrl (cells w)
    /\ created (exec (handleFileSelect file) w) = created w.
Proof.
  intros Hsize; unfold handleFileSelect.
  destruct (startsWith (type file) "image/"); cbn [negb].
  - destruct (Z.gtb_spec (size file) (10 * 1024 * 1024)) as [_ | Hle]; [| lia].
    exists fileTooLarge.
    split; [reflexivity |].
    split; [apply toast_rejects |].
    repeat split.
  - exists invalidFileType.
    split; [reflexivity |].
    split; [apply toast_rejects |].
    repeat split.
Qed.

Lemma oversized_rejected_witness :
  size hugePng > 10 * 1024 * 1024
  /\ exists t,
       variant t = destructive
       /\ rejected_with t initialWorld (exec (handleFileSelect hugePng) initialWorld)
       /\ selectedFile (cells (exec (handleFileSelect hugePng) initialWorld)) = None
       /\ previewUrl (cells (exec (handleFileSelect hugePng) initialWorld)) = ""
       /\ created (exec (handleFileSelect hugePng) initialWorld) = [].
Proof.
  assert (H : size hugePng > 10 * 1024 * 1024) by (simpl; lia).
  split; [exact H |].
  exact (oversized_rejected hugePng initialWorld H).
Defined.

(** The limit itself is still accepted. *)
Example limit_accepted :
  selectedFile
    (cells (exec (handleFileSelect
                    {| name := "herd.png"; type := "image/png";
                       size := 10 * 1024 * 1024 |}) initialWorld))
  <> None.
Proof. discriminate. Qed.

(** ** The scan cycle *)

(** C3. The start action moves the stage to Analyzing only when a breed and
    a file are both set, and then it does; when either is missing it changes
    nothing at all. *)
Theorem startAnalysis_guard (w : World) :
  (selectedFile (cells w) = None \/ selectedBreed (cells w) = "" ->
   exec (startAnalysis (cells w)) w = w)
  /\ (selectedFile (cells w) <> None -> selectedBreed (cells w) <> "" ->
      scanStage (cells (exec (startAnalysis (cells w)) w)) = analyzing
      /\ timers (exec (startAnalysis (cells w)) w)
         = (timers w ++ [selectedBreed (cells w)])%list)
  /\ (scanStage (cells w) = upload ->
      scanStage (cells (exec (startAnalysis (cells w)) w)) = analyzing ->
      selectedFile (cells w) <> None /\ selectedBreed (cells w) <> "").
Proof.
  destruct w as [[b f url stage res drag] ts tm n cr rv]; cbn [cells selectedFile selectedBreed scanStage].
  unfold startAnalysis; cbn [selectedFile selectedBreed].
  destruct f as [file |], b as [| c b']; cbn [is_null truthy_string negb orb].
  - split; [intros _; reflexivity |].
    split; [intros _ Hb; contradiction Hb; reflexivity |].
    cbn; intros -> Hstage; discriminate Hstage.
  - split; [intros [Hf | Hb]; discriminate |].
    split; [intros _ _; split; reflexivity |].
    intros _ _; split; discriminate.
  - split; [intros _; reflexivity |].
    split; [intros Hf; contradiction Hf; reflexivity |].
    cbn; intros -> Hstage; discriminate Hstage.
  - split; [intros _; reflexivity |].
    split; [intros Hf; contradiction Hf; reflexivity |].
    cbn; intros -> Hstage; discriminate Hstage.
Qed.

Lemma startAnalysis_guard_witness :
  (* no breed chosen yet: nothing happens *)
  (let w := run [InputChange [cow]] initialWorld in
   selectedBreed (cells w) = "" /\ exec (startAnalysis (cells w)) w = w)
  (* breed and file set: the stage becomes Analyzing *)
  /\ (let w := run [InputChange [cow]; ValueChange "gir"] initialWorld in
      selectedFile (cells w) <> None /\ selectedBreed (cells w) <> ""
      /\ scanStage (cells (exec (startAnalysis (cells w)) w)) = analyzing).
Proof.
  split.
  - cbv zeta.
    assert (H : selectedBreed (cells (run [InputChange [cow]] initialWorld)) = "")
      by reflexivity.
    split; [exact H |].
    apply (proj1 (startAnalysis_guard (run [InputChange [cow]] initialWorld))).
    right; exact H.
  - cbv zeta.
    assert (Hf : selectedFile
                   (cells (run [InputChange [cow]; ValueChange "gir"] initialWorld))
                 <> None) by (vm_compute; discriminate).
    assert (Hb : selectedBreed
                   (cells (run [InputChange [cow]; ValueChange "gir"] initialWorld))
                 <> "") by (vm_compute; discriminate).
    split; [exact Hf |].
    split; [exact Hb |].
    apply (proj1 (proj2 (startAnalysis_guard
                           (run [InputChange [cow]; ValueChange "gir"] initialWorld)))
             Hf Hb).
Defined.

(** C6. Reset from the Results stage returns to Upload with the file, the
    preview URL, the breed and the result cleared, and revokes the preview
    URL, once, when there was one. *)
Theorem resetScanner_clears (w : World) :
  scanStage (cells w) = results ->
  cells (exec (resetScanner (cells w)) w)
  = {| selectedBreed := ""; selectedFile := None; previewUrl := "";
       scanStage := upload; analysisResult := None;
       isDragging := isDragging (cells w) |}
  /\ revoked (exec (resetScanner (cells w)) w)
     = (if truthy_string (previewUrl (cells w))
        then previewUrl (cells w) :: revoked w
        else revoked w)
  /\ created (exec (resetScanner (cells w)) w) = created w.
Proof.
  intros _.
  destruct w as [[b f url stage res drag] ts tm n cr rv].
  unfold resetScanner; cbn [cells previewUrl].
  destruct (truthy_string url); repeat split.
Qed.

Lemma resetScanner_clears_witness :
  scanStage (cells scanned) = results
  /\ previewUrl (cells scanned) = "blob:0"
  /\ cells (exec (resetScanner (cells scanned)) scanned) = initialState
  /\ revoked (exec (resetScanner (cells scanned)) scanned) = ["blob:0"].
Proof.
  assert (H : scanStage (cells scanned) = results) by reflexivity.
  destruct (resetScanner_clears scanned H) as (Hcells & Hrevoked & _).
  split; [exact H |].
  split; [reflexivity |].
  split; [exact Hcells | exact Hrevoked].
Defined.

(** ** Invariants of the reachable worlds *)

Lemma run_reachable (es : list Event) (w : World) :
  reachable w -> reachable (run es w).
Proof.
  revert w; induction es as [| e es IH]; intros w Hw; simpl.
  - exact Hw.
  - apply IH.
    destruct (offered e w) eqn:He; [| exact Hw].
    apply (reachable_step w); [exact Hw | constructor; exact He].
Qed.

Lemma handleFileSelect_keeps_stage_result (file : File) (w : World) :
  scanStage (cells (exec (handleFileSelect file) w)) = scanStage (cells w)
  /\ analysisResult (cells (exec (handleFileSelect file) w)) = analysisResult (cells w)
  /\ selectedBreed (cells (exec (handleFileSelect file) w)) = selectedBreed (cells w)
  /\ timers (exec (handleFileSelect file) w) = timers w.
Proof.
  unfold handleFileSelect.
  destruct (negb (startsWith (type file) "image/")); [repeat split |].
  destruct (size file >? 10 * 1024 * 1024); repeat split.
Qed.

Lemma step_preserves_result_iff_results (w w' : World) :
  result_iff_results w -> step w w' -> result_iff_results w'.
Proof.
  unfold result_iff_results; intros Hinv Hstep.
  destruct Hstep as [e He].
  destruct e as [v | files | files | | | | r1 r2 r3 | |]; cbn [handle].
  - exact Hinv.
  - destruct files as [| file rest]; [exact Hinv |].
    destruct (handleFileSelect_keeps_stage_result file w) as (-> & -> & _).
    exact Hinv.
  - unfold handleDrop; rewrite exec_bind.
    destruct files as [| file rest]; [exact Hinv |].
    destruct (handleFileSelect_keeps_stage_result file (exec (setIsDragging false) w))
      as (-> & -> & _).
    exact Hinv.
  - exact Hinv.
  - exact Hinv.
  - (* the start button is only there in the Upload stage *)
    cbn [offered] in He.
    apply andb_true_iff in He as [Hstage Hset].
    apply stage_eqb_eq in Hstage.
    unfold startAnalysis.
    rewrite negb_true_iff in Hset; rewrite Hset.
    cbn [exec setScanStage setTimeout bind modify snd cells analysisResult scanStage].
    split; [| discriminate].
    intros Hres; apply Hinv in Hres; congruence.
  - destruct (timers w) as [| key rest]; [exact Hinv |].
    rewrite analysisCallback_cells; cbn [analysisResult scanStage].
    split; [reflexivity | discriminate].
  - unfold resetScanner.
    destruct (truthy_string (previewUrl (cells w)));
      cbn; split; intros H; try discriminate H; contradiction H; reflexivity.
  - unfold saveResults.
    destruct (is_null (analysisResult (cells w))); exact Hinv.
Qed.

(** C7. In every world the events of the rendered view lead to from the
    initial one, there is an analysis result exactly when the stage is
    Results. *)
Theorem reachable_result_iff_results (w : World) :
  reachable w ->
  analysisResult (cells w) <> None <-> scanStage (cells w) = results.
Proof.
  intros Hw; change (result_iff_results w).
  induction Hw as [| w w' _ IH Hstep].
  - split; [intros H; contradiction H; reflexivity | discriminate].
  - exact (step_preserves_result_iff_results w w' IH Hstep).
Qed.

Lemma reachable_result_iff_results_witness :
  reachable scanned
  /\ (analysisResult (cells scanned) <> None <-> scanStage (cells scanned) = results).
Proof.
  assert (H : reachable scanned) by (apply run_reachable; constructor).
  split; [exact H |].
  exact (reachable_result_iff_results scanned H).
Defined.

(** The events of the witness are all offered, and the stages are visited in
    order. *)
Example scan_cycle_stages :
  map (fun es => scanStage (cells (run es initialWorld)))
      [ [InputChange [cow]; ValueChange "holstein"];
        [InputChange [cow]; ValueChange "holstein"; ClickStart];
        [InputChange [cow]; ValueChange "holstein"; ClickStart;
         Timeout (1 # 4) (1 # 2) (3 # 4)];
        [InputChange [cow]; ValueChange "holstein"; ClickStart;
         Timeout (1 # 4) (1 # 2) (3 # 4); ClickNewScan] ]
  = [upload; analyzing; results; upload].
Proof. reflexivity. Qed.

Lemma step_preserves_breeds_known (w w' : World) :
  breeds_known w -> step w w' -> breeds_known w'.
Proof.
  unfold breeds_known; intros [Hsel Htimers] Hstep.
  destruct Hstep as [e He].
  destruct e as [v | files | files | | | | r1 r2 r3 | |]; cbn [handle].
  - cbn [offered] in He; apply andb_true_iff in He as [_ Hv].
    split; [right; exact Hv | exact Htimers].
  - destruct files as [| file rest]; [split; assumption |].
    destruct (handleFileSelect_keeps_stage_result file w) as (_ & _ & -> & ->).
    split; assumption.
  - unfold handleDrop; rewrite exec_bind.
    destruct files as [| file rest]; [split; assumption |].
    destruct (handleFileSelect_keeps_stage_result file (exec (setIsDragging false) w))
      as (_ & _ & -> & ->).
    split; assumption.
  - split; assumption.
  - split; assumption.
  - cbn [offered] in He; apply andb_true_iff in He as [_ Hset].
    unfold startAnalysis.
    rewrite negb_true_iff in Hset; rewrite Hset.
    apply orb_false_iff in Hset as [_ Hbreed].
    apply negb_false_iff in Hbreed.
    cbn [exec setScanStage setTimeout bind modify snd cells selectedBreed timers].
    split; [exact Hsel |].
    apply Forall_app; split; [exact Htimers |].
    constructor; [| constructor].
    destruct Hsel as [Hempty | Hknown]; [| exact Hknown].
    rewrite Hempty in Hbreed; discriminate Hbreed.
  - destruct (timers w) as [| key rest] eqn:Hqueue.
    + split; [exact Hsel | rewrite Hqueue; exact Htimers].
    + rewrite analysisCallback_cells; cbn [selectedBreed].
      split; [exact Hsel |].
      change (Forall (fun key => is_breed key = true) (tl (timers w))).
      rewrite Hqueue.
      inversion Htimers; assumption.
  - unfold resetScanner.
    destruct (truthy_string (previewUrl (cells w))); cbn; split; auto.
  - unfold saveResults.
    destruct (is_null (analysisResult (cells w))); split; assumption.
Qed.

(** The breed cell and every pending callback hold one of the four offered
    breeds (or the cell is still empty). *)
Lemma reachable_breeds_known (w : World) : reachable w -> breeds_known w.
Proof.
  induction 1 as [| w w' _ IH Hstep].
  - split; [left; reflexivity | constructor].
  - exact (step_preserves_breeds_known w w' IH Hstep).
Qed.

(** Each offered breed has its own entry in the table. *)
Lemma is_breed_own (key : string) :
  is_breed key = true -> In key (map fst sampleResults).
Proof.
  unfold is_breed; intros H.
  apply existsb_exists in H as (b & Hb & Heq).
  apply String.eqb_eq in Heq; subst key.
  simpl in Hb; simpl.
  destruct Hb as [<- | [<- | [<- | [<- | []]]]]; simpl; tauto.
Qed.

(** ** The preview resource *)

(** C1. Two accepted uploads in a row: the second replaces the preview of the
    first without revoking it, and the later reset revokes only the second.
    The first URL is created and never released. *)
Theorem replaced_preview_is_leaked :
  let w1 := handle (InputChange [cow]) initialWorld in
  let w2 := handle (InputChange [calf]) w1 in
  let w3 := run [ValueChange "gir"; ClickStart; Timeout (1 # 2) (1 # 2) (1 # 2);
                 ClickNewScan] w2 in
  previewUrl (cells w1) = "blob:0"
  /\ previewUrl (cells w2) = "blob:1"
  /\ created w2 = ["blob:1"; "blob:0"]
  /\ revoked w2 = []
  /\ scanStage (cells w3) = upload
  /\ revoked w3 = ["blob:1"]
  /\ leaked w3 = ["blob:0"]
  /\ revocations "blob:0" w3 = 0%nat.
Proof. cbv zeta; repeat split. Qed.

(** ** The table lookup *)





(** The fallback also serves ids that no control can produce, as long as
    they name no member of the prototype. *)
Example lookup_unknown_id :
  lookup "zebu" = entry sahiwal
  /\ finalResult "zebu" (1 # 2) (1 # 2) (1 # 2) = sahiwal.
Proof. split; reflexivity. Qed.

(** Out of reach of the view: a name such as [toString] is not in the table,
    yet the lookup finds the method of that name on the prototype, which is
    truthy, so the fallback is passed over and height and score are not
    numbers.  No control of the view yields such an id. *)
Lemma lookup_inherited_name :
  assoc "toString" sampleResults = None
  /\ lookup "toString" = inherited (Function 0)
  /\ finalResult "toString" (1 # 2) (1 # 2) (1 # 2)
     = {| height := NaN; length := 140; score := NaN;
          breed := None; confidence := None |}.
Proof. split; [reflexivity | split; reflexivity]. Qed.

(** Whatever the id, the callback ends the Analyzing stage with a result. *)
Lemma analysisCallback_always_stores (key : string) (r1 r2 r3 : Q) (w : World) :
  analysisResult (cells (exec (analysisCallback key r1 r2 r3) w)) <> None
  /\ scanStage (cells (exec (analysisCallback key r1 r2 r3) w)) = results.
Proof. rewrite analysisCallback_cells; split; [discriminate | reflexivity]. Qed.

(** In the worlds the view can reach, every pending callback closed over an
    offered breed, so the lookup there finds an own entry. *)
Lemma reachable_lookup_own (w : World) (key : string) :
  reachable w -> In key (timers w) ->
  exists base, assoc key sampleResults = Some base /\ lookup key = entry base.
Proof.
  intros Hw Hin.
  destruct (reachable_breeds_known w Hw) as [_ Htimers].
  rewrite Forall_forall in Htimers.
  destruct (sampleResults_entries key (is_breed_own key (Htimers key Hin)))
    as (base & _ & _ & _ & Hlook & Hown & _).
  exists base; split; assumption.
Qed.

(** * Further properties of the component *)

(** ** Object URLs of the browser *)

Lemma blob_truthy (n : N) : truthy_string (blob n) = true.
Proof. reflexivity. Qed.

Lemma to_uint_nonnil (n : N) : N.to_uint n <> Decimal.Nil.
Proof.
  destruct n as [| p]; [discriminate |].
  apply DecimalPos.Unsigned.to_uint_nonnil.
Qed.

(** Two calls never mint the same URL. *)
Lemma blob_inj (n m : N) : blob n = blob m -> n = m.
Proof.
  unfold blob; intros H.
  apply DecimalN.Unsigned.to_uint_inj.
  assert (Hs : NilZero.string_of_uint (N.to_uint n)
               = NilZero.string_of_uint (N.to_uint m)).
  { cbn in H; injection H as H; exact H. }
  pose proof (NilZero.usu (N.to_uint n) (to_uint_nonnil n)) as Hn.
  pose proof (NilZero.usu (N.to_uint m) (to_uint_nonnil m)) as Hm.
  rewrite Hs, Hm in Hn; injection Hn as Hn; symmetry; exact Hn.
Qed.

(** ** Frames of the handlers *)

Lemma handleFileSelect_outcome (file : File) (w : World) :
  upload_outcome file w (exec (handleFileSelect file) w)
  /\ isDragging (cells (exec (handleFileSelect file) w)) = isDragging (cells w).
Proof.
  unfold handleFileSelect, upload_outcome.
  destruct (negb (startsWith (type file) "image/")).
  - repeat split; left; repeat split.
  - destruct (size file >? 10 * 1024 * 1024).
    + repeat split; left; repeat split.
    + repeat split; right; repeat split.
Qed.

Lemma handleDrop_outcome (file : File) (rest : list File) (w : World) :
  upload_outcome file w (exec (handleDrop (file :: rest)) w).
Proof.
  unfold handleDrop; rewrite exec_bind.
  destruct (handleFileSelect_outcome file (exec (setIsDragging false) w)) as [H _].
  exact H.
Qed.

(** The events that are no upload and no reset leave the URLs alone. *)
Lemma other_events_keep_urls (e : Event) (w : World) :
  match e with
  | InputChange _ | DropFiles _ | ClickNewScan => True
  | _ =>
      previewUrl (cells (handle e w)) = previewUrl (cells w)
      /\ minted (handle e w) = minted w
      /\ created (handle e w) = created w
      /\ revoked (handle e w) = revoked w
  end.
Proof.
  destruct e as [v | files | files | | | | r1 r2 r3 | |];
    try exact I; cbn [handle].
  - repeat split.
  - repeat split.
  - repeat split.
  - unfold startAnalysis.
    destruct (is_null (selectedFile (cells w))
              || negb (truthy_string (selectedBreed (cells w)))); repeat split.
  - destruct (timers w) as [| key rest]; repeat split.
  - unfold saveResults.
    destruct (is_null (analysisResult (cells w))); repeat split.
Qed.

(** ** The scan cycle, stage by stage *)

Lemma offered_upload_stage (e : Event) (w : World) :
  offered e w = true ->
  match e with
  | Timeout _ _ _ | ClickNewScan | ClickSave => True
  | _ => scanStage (cells w) = upload
  end.
Proof.
  destruct e; cbn [offered]; intros He; try exact I;
    try (apply andb_true_iff in He as [He _]);
    apply stage_eqb_eq; exact He.
Qed.

Lemma upload_outcome_cycle_inv (file : File) (w w' : World) :
  scanStage (cells w) = upload ->
  cycle_inv w -> upload_outcome file w w' -> cycle_inv w'.
Proof.
  unfold cycle_inv, upload_outcome; cbv zeta.
  intros Hstage (Hfile & Hbreed & Hcase)
         (Eb & Es & Er & Et & _ & [(Ef & Eu & _ & _) | (Ef & Eu & _ & _)]);
    rewrite Es, Hstage, Eb, Er, Et, Ef, Eu; rewrite Hstage in Hcase.
  - split; [exact Hfile | split; [exact Hbreed | exact Hcase]].
  - split; [reflexivity | split; [exact Hbreed | exact Hcase]].
Qed.

Lemma step_preserves_cycle_inv (w w' : World) :
  cycle_inv w -> step w w' -> cycle_inv w'.
Proof.
  intros Hinv [e He].
  pose proof (offered_upload_stage e w He) as Hup.
  destruct e as [v | files | files | | | | r1 r2 r3 | |]; cbn [handle].
  - (* a breed is chosen *)
    cbn [offered] in He; apply andb_true_iff in He as [_ Hv].
    destruct Hinv as (Hfile & _ & Hcase); unfold cycle_inv; cbn.
    rewrite Hup in Hcase |- *.
    split; [exact Hfile | split; [right; exact Hv | exact Hcase]].
  - destruct files as [| file rest]; [exact Hinv |].
    apply (upload_outcome_cycle_inv file w); [exact Hup | exact Hinv |].
    apply handleFileSelect_outcome.
  - destruct files as [| file rest].
    + destruct Hinv as (Hfile & Hbreed & Hcase); unfold cycle_inv; cbn.
      split; [exact Hfile | split; [exact Hbreed | exact Hcase]].
    + apply (upload_outcome_cycle_inv file w); [exact Hup | exact Hinv |].
      apply handleDrop_outcome.
  - destruct Hinv as (Hfile & Hbreed & Hcase); unfold cycle_inv; cbn.
    split; [exact Hfile | split; [exact Hbreed | exact Hcase]].
  - destruct Hinv as (Hfile & Hbreed & Hcase); unfold cycle_inv; cbn.
    split; [exact Hfile | split; [exact Hbreed | exact Hcase]].
  - (* start: the one timeout is queued *)
    cbn [offered] in He; apply andb_true_iff in He as [_ Hset].
    apply negb_true_iff in Hset.
    destruct Hinv as (Hfile & Hbreed & Hcase).
    rewrite Hup in Hcase; destruct Hcase as [Hq Hres].
    unfold startAnalysis; rewrite Hset.
    unfold cycle_inv; cbn; rewrite Hq.
    split; [exact Hfile | split; [exact Hbreed |]].
    split; [reflexivity | split; [exact Hres | exact Hset]].
  - (* the timeout fires: only the Analyzing stage has one *)
    cbn [offered] in He.
    apply andb_true_iff in He as [He H3].
    apply andb_true_iff in He as [He H2].
    apply andb_true_iff in He as [Hq H1].
    destruct Hinv as (Hfile & Hbreed & Hcase).
    destruct (scanStage (cells w)) eqn:Hstage.
    + destruct Hcase as [E _]; rewrite E in Hq; discriminate Hq.
    + destruct Hcase as (E & _ & Hset); rewrite E.
      unfold cycle_inv; rewrite analysisCallback_cells; cbn.
      split; [exact Hfile | split; [exact Hbreed |]].
      split; [rewrite E; reflexivity | split; [exact Hset |]].
      eexists; split; [reflexivity |].
      exists r1, r2, r3; repeat split; assumption.
    + destruct Hcase as [E _]; rewrite E in Hq; discriminate Hq.
  - (* reset *)
    cbn [offered] in He; apply andb_true_iff in He as [Hstage _].
    apply stage_eqb_eq in Hstage.
    destruct Hinv as (_ & _ & Hcase); rewrite Hstage in Hcase.
    destruct Hcase as [Hq _].
    unfold resetScanner, cycle_inv.
    destruct (truthy_string (previewUrl (cells w))); cbn;
      (split; [reflexivity | split; [left; reflexivity | split; [exact Hq | reflexivity]]]).
  - unfold saveResults.
    destruct (is_null (analysisResult (cells w))); [exact Hinv |].
    destruct Hinv as (Hfile & Hbreed & Hcase); unfold cycle_inv; cbn.
    split; [exact Hfile | split; [exact Hbreed | exact Hcase]].
Qed.

Lemma reachable_cycle_inv (w : World) : reachable w -> cycle_inv w.
Proof.
  induction 1 as [| w w' _ IH Hstep].
  - unfold cycle_inv; cbn.
    split; [reflexivity | split; [left; reflexivity | split; reflexivity]].
  - exact (step_preserves_cycle_inv w w' IH Hstep).
Qed.

(** ** The preview URLs *)

Lemma fresh_blob (w : World) :
  (forall url, In url (created w) -> exists k, (k < minted w)%N /\ url = blob k) ->
  ~ In (blob (minted w)) (created w).
Proof.
  intros Hbound Hin.
  destruct (Hbound _ Hin) as (k & Hk & E).
  apply blob_inj in E; subst k.
  exact (N.lt_irrefl _ Hk).
Qed.

Lemma upload_outcome_urls_inv (file : File) (w w' : World) :
  urls_inv w -> upload_outcome file w w' -> urls_inv w'.
Proof.
  unfold urls_inv, upload_outcome.
  intros (Hbound & Hshown & Hincl & Hrev & Hcre)
         (_ & _ & _ & _ & Ev & [(_ & Eu & Em & Ec) | (_ & Eu & Em & Ec)]);
    rewrite Ev, Eu, Em, Ec.
  - exact (conj Hbound (conj Hshown (conj Hincl (conj Hrev Hcre)))).
  - pose proof (fresh_blob w Hbound) as Hfresh.
    split; [| split; [| split; [| split]]].
    + intros url [<- | Hin].
      * exists (minted w); split; [apply N.lt_succ_diag_r | reflexivity].
      * destruct (Hbound url Hin) as (k & Hk & E).
        exists k; split; [apply N.lt_lt_succ_r; exact Hk | exact E].
    + intros _; split; [left; reflexivity |].
      intros Hin; apply Hfresh, Hincl, Hin.
    + apply incl_tl; exact Hincl.
    + exact Hrev.
    + constructor; assumption.
Qed.

Lemma resetScanner_urls (w : World) :
  previewUrl (cells (exec (resetScanner (cells w)) w)) = ""
  /\ minted (exec (resetScanner (cells w)) w) = minted w
  /\ created (exec (resetScanner (cells w)) w) = created w
  /\ revoked (exec (resetScanner (cells w)) w)
     = (if truthy_string (previewUrl (cells w))
        then previewUrl (cells w) :: revoked w
        else revoked w).
Proof.
  unfold resetScanner.
  destruct (truthy_string (previewUrl (cells w))); repeat split.
Qed.

Lemma step_preserves_urls_inv (w w' : World) :
  urls_inv w -> step w w' -> urls_inv w'.
Proof.
  intros Hinv [e He].
  pose proof (other_events_keep_urls e w) as Hkeep.
  destruct e as [v | files | files | | | | r1 r2 r3 | |];
    try (destruct Hkeep as (Eu & Em & Ec & Ev);
         unfold urls_inv; rewrite Eu, Em, Ec, Ev; exact Hinv);
    cbn [handle].
  - destruct files as [| file rest]; [exact Hinv |].
    apply (upload_outcome_urls_inv file w); [exact Hinv |].
    apply handleFileSelect_outcome.
  - destruct files as [| file rest]; [exact Hinv |].
    apply (upload_outcome_urls_inv file w); [exact Hinv |].
    apply handleDrop_outcome.
  - destruct (resetScanner_urls w) as (Eu & Em & Ec & Ev).
    destruct Hinv as (Hbound & Hshown & Hincl & Hrev & Hcre).
    unfold urls_inv; rewrite Eu, Em, Ec, Ev.
    split; [exact Hbound |].
    split; [intros H; discriminate H |].
    destruct (truthy_string (previewUrl (cells w))).
    + destruct (Hshown eq_refl) as [Hin Hnot].
      split; [| split; [constructor; assumption | exact Hcre]].
      intros url [<- | H]; [exact Hin | exact (Hincl url H)].
    + split; [exact Hincl | split; assumption].
Qed.

Lemma reachable_urls_inv (w : World) : reachable w -> urls_inv w.
Proof.
  induction 1 as [| w w' _ IH Hstep].
  - unfold urls_inv; cbn.
    split; [intros url [] |].
    split; [intros H; discriminate H |].
    split; [intros url [] | split; constructor].
  - exact (step_preserves_urls_inv w w' IH Hstep).
Qed.

(** ** Uploads *)

Lemma cons_neq_self {A : Type} (x : A) (l : list A) : l <> x :: l.
Proof.
  intros H; apply (f_equal (@List.length A)) in H; simpl in H; lia.
Qed.

(** X1. An upload is accepted exactly when the type starts with [image/] and
    the size is at most 10 MiB: then, and only then, the file is stored, a
    newly minted URL becomes the preview and the upload is announced. *)
Theorem upload_accepts_exactly (file : File) (w : World) :
  startsWith (type file) "image/" && (size file <=? 10 * 1024 * 1024) = true
  <-> (selectedFile (cells (exec (handleFileSelect file) w)) = Some file
       /\ previewUrl (cells (exec (handleFileSelect file) w)) = blob (minted w)
       /\ created (exec (handleFileSelect file) w) = blob (minted w) :: created w
       /\ toasts (exec (handleFileSelect file) w) = imageUploaded :: toasts w).
Proof.
  unfold handleFileSelect.
  destruct (startsWith (type file) "image/"); cbn [negb andb].
  - destruct (Z.gtb_spec (size file) (10 * 1024 * 1024)) as [Hgt | Hle].
    + split.
      * intros H; apply Z.leb_le in H; lia.
      * intros (_ & _ & Hc & _); cbn in Hc.
        contradiction (cons_neq_self _ _ Hc).
    + split.
      * intros _; repeat split.
      * intros _; apply Z.leb_le; exact Hle.
  - split; [discriminate |].
    intros (_ & _ & Hc & _); cbn in Hc.
    contradiction (cons_neq_self _ _ Hc).
Qed.

(** X2. A drop always ends the dragging highlight, whether the file is
    accepted or not; of several dropped files only the first is looked at,
    and a drop without files does what leaving the zone does. *)
Theorem drop_takes_first_file (files : list File) (w : World) :
  isDragging (cells (exec (handleDrop files) w)) = false
  /\ exec (handleDrop files) w = exec (handleDrop (firstn 1 files)) w
  /\ exec (handleDrop []) w = exec handleDragLeave w.
Proof.
  split; [| split; [| reflexivity]].
  - unfold handleDrop; rewrite exec_bind.
    destruct files as [| file rest]; [reflexivity |].
    destruct (handleFileSelect_outcome file (exec (setIsDragging false) w)) as [_ ->].
    reflexivity.
  - destruct files as [| file rest]; reflexivity.
Qed.

(** A dropped file is treated like a file chosen in the dialog: the two
    ways of uploading end in the same world once the highlight is off. *)
Lemma drop_like_dialog (file : File) (rest : list File) (w : World) :
  handle (DropFiles (file :: rest)) w
  = handle (InputChange (file :: rest)) (handle DragLeave w).
Proof.
  cbn [handle]; unfold handleDrop, handleDragLeave.
  rewrite exec_bind; reflexivity.
Qed.

(** ** Saving *)

(** X3. Whenever the save button is there, a click on it adds the one
    notification and changes nothing else: no cell, no timer, no URL.  The
    null test of the handler never fires, the results block being rendered
    only with a result. *)
Theorem save_only_notifies (w : World) :
  offered ClickSave w = true ->
  handle ClickSave w = exec (toast resultsSaved) w
  /\ cells (handle ClickSave w) = cells w
  /\ timers (handle ClickSave w) = timers w
  /\ created (handle ClickSave w) = created w
  /\ revoked (handle ClickSave w) = revoked w.
Proof.
  cbn [offered handle]; intros He.
  apply andb_true_iff in He as [_ Hres].
  apply negb_true_iff in Hres.
  unfold saveResults; rewrite Hres.
  repeat split.
Qed.

Lemma save_only_notifies_witness :
  offered ClickSave scanned = true
  /\ toasts (handle ClickSave scanned) = resultsSaved :: toasts scanned
  /\ cells (handle ClickSave scanned) = cells scanned.
Proof.
  assert (H : offered ClickSave scanned = true) by reflexivity.
  destruct (save_only_notifies scanned H) as (Heq & Hcells & _).
  split; [exact H |].
  split; [rewrite Heq; reflexivity | exact Hcells].
Defined.

(** ** Presentation *)

(** X4. Colour and label of a score always go together: the four colour
    classes are used with the four labels, band by band. *)
Theorem color_matches_label (score : Z) :
  (getScoreLabel score = "Excellent" <-> getScoreColor score = "text-success")
  /\ (getScoreLabel score = "Good" <-> getScoreColor score = "text-primary")
  /\ (getScoreLabel score = "Average" <-> getScoreColor score = "text-yellow-600")
  /\ (getScoreLabel score = "Poor" <-> getScoreColor score = "text-destructive").
Proof.
  unfold getScoreLabel, getScoreColor.
  destruct (score >=? 90); [| destruct (score >=? 80); [| destruct (score >=? 70)]];
    (split; [| split; [| split]]); split; intros H;
    solve [reflexivity | discriminate H].
Qed.

(** ** The jitter, in doubles *)

Lemma rne_shift_bounds (a s C : Z) :
  0 <= s -> 0 <= a <= C * 2 ^ s -> 0 <= rne_shift a s <= C.
Proof.
  intros Hs Ha; unfold rne_shift.
  assert (Hp : 0 < 2 ^ s) by (apply Z.pow_pos_nonneg; lia).
  pose proof (Z.div_mod a (2 ^ s) ltac:(lia)) as Hdiv.
  pose proof (Z.mod_pos_bound a (2 ^ s) Hp) as Hrem.
  set (p := 2 ^ s) in *; set (q := a / p) in *; set (m := a mod p) in *.
  assert (Hq : 0 <= q <= C) by nia.
  destruct (Z.compare_spec (2 * m) p) as [He | Hl | Hg].
  - destruct (Z.even q); [lia | nia].
  - lia.
  - nia.
Qed.

(** Rounding does not cross a double: a bound [C * 2^k] with a short [C] is
    itself a double, on the grid of every number below it. *)
Lemma binary64_abs_le (n C k : Z) :
  0 <= k -> 0 < C < 2 ^ 52 -> Z.abs n <= C * 2 ^ k ->
  Z.abs (binary64 n) <= C * 2 ^ k.
Proof.
  intros Hk HC Hn; unfold binary64.
  destruct (Z.ltb_spec (Z.abs n) (2 ^ 53)) as [_ | Hbig]; [exact Hn |].
  set (a := Z.abs n) in *.
  assert (Ha : 0 < a) by (assert (0 < 2 ^ 53) by (apply Z.pow_pos_nonneg; lia); lia).
  assert (Hl53 : 53 <= Z.log2 a) by (apply Z.log2_le_pow2; lia).
  destruct (Z.log2_spec a Ha) as [Hlo _].
  assert (Hlt : Z.log2 a < 52 + k).
  { apply (Z.pow_lt_mono_r_iff 2); [lia | lia |].
    rewrite Z.pow_add_r by lia.
    assert (0 < 2 ^ k) by (apply Z.pow_pos_nonneg; lia).
    nia. }
  set (s := Z.log2 a - 52) in *.
  assert (Hsplit : 2 ^ k = 2 ^ (k - s) * 2 ^ s)
    by (rewrite <- Z.pow_add_r by lia; f_equal; lia).
  assert (Hb : 0 <= rne_shift a s <= C * 2 ^ (k - s)).
  { apply rne_shift_bounds; [lia |].
    split; [lia |].
    rewrite <- Z.mul_assoc, <- Hsplit; exact Hn. }
  assert (Hp : 0 < 2 ^ s) by (apply Z.pow_pos_nonneg; lia).
  assert (Habs : Z.abs (Z.sgn n * (rne_shift a s * 2 ^ s)) = rne_shift a s * 2 ^ s).
  { assert (Hx : 0 <= rne_shift a s * 2 ^ s) by nia.
    assert (Hn0 : n <> 0) by (unfold a in Ha; lia).
    revert Hx; generalize (rne_shift a s * 2 ^ s); intros x Hx.
    destruct n as [| p | p]; [contradiction Hn0; reflexivity | |];
      cbn [Z.sgn]; lia. }
  rewrite Habs, Hsplit; nia.
Qed.

Lemma grid_pos : 0 < grid.
Proof. reflexivity. Qed.

Lemma grid_half : grid / 2 = 1 * 2 ^ 1073 /\ grid = 2 * (1 * 2 ^ 1073).
Proof. split; vm_compute; reflexivity. Qed.

Lemma Math_round_double_range (b : Z) :
  Z.abs b <= 5 * grid -> -5 <= Math_round_double b <= 5.
Proof.
  intros Hb; unfold Math_round_double.
  pose proof grid_pos as Hg.
  split.
  - apply Z.div_le_lower_bound; lia.
  - apply Z.lt_succ_r, Z.div_lt_upper_bound; lia.
Qed.

(** The difference stays within a half, the product within 5, and neither
    rounding leaves these bounds. *)
Lemma variation_double_range (r : Z) :
  0 <= r < grid -> -5 <= variation_double r <= 5.
Proof.
  intros Hr; unfold variation_double.
  apply Math_round_double_range.
  destruct grid_half as [Hhalf Hgrid].
  assert (Ha : Z.abs (binary64 (r - grid / 2)) <= 1 * 2 ^ 1073).
  { apply binary64_abs_le; [lia | split; reflexivity |].
    rewrite Hhalf; rewrite Hgrid in Hr; lia. }
  change (5 * grid) with (5 * 2 ^ 1074).
  apply binary64_abs_le; [lia | split; reflexivity |].
  rewrite Z.abs_mul; change (Z.abs 10) with 10.
  replace (5 * 2 ^ 1074) with (1 * 2 ^ 1073 * 10) by (vm_compute; reflexivity).
  apply Z.mul_le_mono_nonneg_r; [lia | exact Ha].
Qed.

(** X5. Computed in doubles as line 102 does, with the difference and the
    product each rounded, the jitter of every draw of [Math.random] is a
    whole number from -5 to 5, and each of these eleven numbers is the
    jitter of some draw. *)
Theorem variation_double_covers_range (k : Z) :
  (forall r, is_double_draw r = true -> -5 <= variation_double r <= 5)
  /\ (-5 <= k <= 5 ->
      exists r, is_double_draw r = true /\ variation_double r = k).
Proof.
  split.
  - intros r Hr; apply variation_double_range.
    unfold is_double_draw in Hr.
    apply andb_true_iff in Hr as [Hr _].
    apply andb_true_iff in Hr as [Hlo Hhi].
    apply Z.leb_le in Hlo; apply Z.ltb_lt in Hhi; lia.
  - intros Hk.
    assert (Hcases : k = -5 \/ k = -4 \/ k = -3 \/ k = -2 \/ k = -1 \/ k = 0
                     \/ k = 1 \/ k = 2 \/ k = 3 \/ k = 4 \/ k = 5) by lia.
    destruct Hcases
      as [-> | [-> | [-> | [-> | [-> | [-> | [-> | [-> | [-> | [-> | ->]]]]]]]]]].
    + exists 0; split; vm_compute; reflexivity.
    + exists (4 * 2 ^ 1069); split; vm_compute; reflexivity.
    + exists (6 * 2 ^ 1069); split; vm_compute; reflexivity.
    + exists (8 * 2 ^ 1069); split; vm_compute; reflexivity.
    + exists (12 * 2 ^ 1069); split; vm_compute; reflexivity.
    + exists (16 * 2 ^ 1069); split; vm_compute; reflexivity.
    + exists (20 * 2 ^ 1069); split; vm_compute; reflexivity.
    + exists (22 * 2 ^ 1069); split; vm_compute; reflexivity.
    + exists (26 * 2 ^ 1069); split; vm_compute; reflexivity.
    + exists (28 * 2 ^ 1069); split; vm_compute; reflexivity.
    + exists (31 * 2 ^ 1069); split; vm_compute; reflexivity.
Qed.

Lemma variation_double_covers_range_witness :
  (is_double_draw near_095 = true /\ -5 <= 3 <= 5)
  /\ -5 <= variation_double near_095 <= 5
  /\ exists r, is_double_draw r = true /\ variation_double r = 3.
Proof.
  assert (Hr : is_double_draw near_095 = true) by (vm_compute; reflexivity).
  assert (Hk : -5 <= 3 <= 5) by lia.
  split; [split; assumption |].
  split.
  - exact (proj1 (variation_double_covers_range 3) near_095 Hr).
  - exact (proj2 (variation_double_covers_range 3) Hk).
Defined.

(** Where the roundings show: for the double next to 0.95 the product is
    rounded up to 4.5 and the jitter is 5, while exact arithmetic stays below
    4.5 and gives 4.  On draws with few bits nothing is rounded and the two
    agree. *)
Example rounding_moves_the_jitter :
  is_double_draw near_095 = true
  /\ variation_double near_095 = 5
  /\ variation (Q_of_double near_095) = 4
  /\ map (fun r => variation_double (r * 2 ^ 1069)) [0; 4; 8; 16; 31]
     = map (fun r => variation (Q_of_double (r * 2 ^ 1069))) [0; 4; 8; 16; 31].
Proof.
  split; [vm_compute; reflexivity |].
  split; [vm_compute; reflexivity |].
  split; vm_compute; reflexivity.
Qed.

(** ** Results for the offered breeds *)

(** Every baseline of the table is more than the jitter away from the
    floors and from the ceiling of the score. *)
Lemma sampleResults_margins (key : string) :
  In key (map fst sampleResults) ->
  exists base h l s,
    lookup key = entry base /\ assoc key sampleResults = Some base
    /\ height base = Num h /\ length base = Num l /\ score base = Num s
    /\ 135 <= h <= 145 /\ 148 <= l <= 160 /\ 85 <= s <= 92.
Proof.
  simpl; intros [<- | [<- | [<- | [<- | []]]]].
  - exists sahiwal, 142, 155, 87; repeat split; lia.
  - exists murrah, 135, 148, 92; repeat split; lia.
  - exists gir, 138, 150, 85; repeat split; lia.
  - exists holstein, 145, 160, 90; repeat split; lia.
Qed.

Lemma finalResult_unclamped (key : string) (r1 r2 r3 : Q) :
  In key (map fst sampleResults) ->
  is_draw r1 = true -> is_draw r2 = true -> is_draw r3 = true ->
  exists base h l s,
    assoc key sampleResults = Some base
    /\ height base = Num h /\ length base = Num l /\ score base = Num s
    /\ (135 <= h <= 145 /\ 148 <= l <= 160 /\ 85 <= s <= 92)
    /\ (-5 <= variation r1 <= 5 /\ -5 <= variation r2 <= 5
        /\ -5 <= variation r3 <= 5)
    /\ finalResult key r1 r2 r3
       = {| height := Num (h + variation r1);
            length := Num (l + variation r2);
            score := Num (s + variation r3);
            breed := breed base;
            confidence := confidence base |}.
Proof.
  intros Hkey H1 H2 H3.
  apply variation_range in H1, H2, H3.
  destruct (sampleResults_margins key Hkey)
    as (base & h & l & s & Hlook & Hown & Hh & Hl & Hs & Bh & Bl & Bs).
  exists base, h, l, s.
  split; [exact Hown | split; [exact Hh | split; [exact Hl | split; [exact Hs |]]]].
  split; [exact (conj Bh (conj Bl Bs)) |].
  split; [exact (conj H1 (conj H2 H3)) |].
  unfold finalResult; rewrite Hlook, (build_entry base h l s) by assumption.
  rewrite (Z.max_r 120), (Z.max_r 140), (Z.min_r 100), (Z.max_r 70) by lia.
  reflexivity.
Qed.

(** X6. For a breed of the table the floors and the clamp of the score never
    act: the result is the baseline with the three jitters added, and breed
    name and confidence are those of the baseline. *)
Theorem clamps_never_act (key : string) (r1 r2 r3 : Q) :
  In key (map fst sampleResults) ->
  is_draw r1 = true -> is_draw r2 = true -> is_draw r3 = true ->
  exists base h l s,
    assoc key sampleResults = Some base
    /\ height base = Num h /\ length base = Num l /\ score base = Num s
    /\ finalResult key r1 r2 r3
       = {| height := Num (h + variation r1);
            length := Num (l + variation r2);
            score := Num (s + variation r3);
            breed := breed base;
            confidence := confidence base |}.
Proof.
  intros Hkey H1 H2 H3.
  destruct (finalResult_unclamped key r1 r2 r3 Hkey H1 H2 H3)
    as (base & h & l & s & Hown & Hh & Hl & Hs & _ & _ & Hfinal).
  exists base, h, l, s.
  split; [exact Hown | split; [exact Hh | split; [exact Hl | split; [exact Hs |]]]].
  exact Hfinal.
Qed.

Lemma clamps_never_act_witness :
  (In "sahiwal" (map fst sampleResults)
   /\ is_draw 0 = true /\ is_draw (1 # 2) = true /\ is_draw (19 # 20) = true)
  /\ finalResult "sahiwal" 0 (1 # 2) (19 # 20)
     = {| height := 142 - 5; length := 155 + 0; score := 87 + 5;
          breed := Some "Sahiwal"; confidence := Some (Num 94) |}.
Proof.
  assert (Hkey : In "sahiwal" (map fst sampleResults)) by (simpl; tauto).
  split; [split; [exact Hkey | split; [| split]]; reflexivity |].
  destruct (clamps_never_act "sahiwal" 0 (1 # 2) (19 # 20) Hkey eq_refl eq_refl eq_refl)
    as (base & h & l & s & Hown & Hh & Hl & Hs & Hfinal).
  injection Hown as <-.
  injection Hh as <-; injection Hl as <-; injection Hs as <-.
  exact Hfinal.
Defined.

(** The breed of a world past the Upload stage is an offered one. *)
Lemma started_breed_offered (w : World) :
  cycle_inv w -> startDisabled (cells w) = false ->
  In (selectedBreed (cells w)) (map fst sampleResults).
Proof.
  intros (_ & Hbreed & _) Hset.
  apply is_breed_own.
  destruct Hbreed as [Hempty | Hknown]; [| exact Hknown].
  unfold startDisabled in Hset; rewrite Hempty in Hset.
  apply orb_false_iff in Hset as [_ Hset]; discriminate Hset.
Qed.

(** A result in the cells was built for the breed in the cells. *)
Lemma reachable_result_built (w : World) (r : AnalysisResult) :
  reachable w -> analysisResult (cells w) = Some r ->
  In (selectedBreed (cells w)) (map fst sampleResults)
  /\ built_for (selectedBreed (cells w)) r.
Proof.
  intros Hw Hres.
  pose proof (reachable_cycle_inv w Hw) as Hinv.
  pose proof Hinv as (_ & _ & Hcase).
  destruct (scanStage (cells w)).
  - destruct Hcase as [_ Hnone]; congruence.
  - destruct Hcase as (_ & Hnone & _); congruence.
  - destruct Hcase as (_ & Hset & r' & Hsome & Hbuilt).
    assert (r' = r) by congruence; subst r'.
    split; [apply started_breed_offered; assumption | exact Hbuilt].
Qed.

(** X7. Whatever the user does, a result that is shown belongs to the breed
    that is selected: it carries the name and the confidence of that breed's
    table entry, and height, length and score are whole numbers at most 5
    away from the entry's. *)
Theorem shown_result_matches_breed (w : World) (r : AnalysisResult) :
  reachable w -> analysisResult (cells w) = Some r ->
  exists base h l s h' l' s',
    assoc (selectedBreed (cells w)) sampleResults = Some base
    /\ breed r = breed base /\ confidence r = confidence base
    /\ height base = Num h /\ length base = Num l /\ score base = Num s
    /\ height r = Num h' /\ length r = Num l' /\ score r = Num s'
    /\ Z.abs (h' - h) <= 5 /\ Z.abs (l' - l) <= 5 /\ Z.abs (s' - s) <= 5.
Proof.
  intros Hw Hres.
  destruct (reachable_result_built w r Hw Hres)
    as (Hkey & r1 & r2 & r3 & H1 & H2 & H3 & ->).
  destruct (finalResult_unclamped (selectedBreed (cells w)) r1 r2 r3 Hkey H1 H2 H3)
    as (base & h & l & s & Hown & Hh & Hl & Hs & _ & (B1 & B2 & B3) & Hfinal).
  exists base, h, l, s, (h + variation r1), (l + variation r2), (s + variation r3).
  rewrite Hfinal; cbn [height length score breed confidence].
  split; [exact Hown | split; [reflexivity | split; [reflexivity |]]].
  split; [exact Hh | split; [exact Hl | split; [exact Hs |]]].
  split; [reflexivity | split; [reflexivity | split; [reflexivity |]]].
  split; [lia | split; lia].
Qed.

Lemma shown_result_matches_breed_witness :
  reachable scanned
  /\ analysisResult (cells scanned) = Some scannedResult
  /\ exists base h l s h' l' s',
       assoc (selectedBreed (cells scanned)) sampleResults = Some base
       /\ breed scannedResult = breed base
       /\ confidence scannedResult = confidence base
       /\ height base = Num h /\ length base = Num l /\ score base = Num s
       /\ height scannedResult = Num h' /\ length scannedResult = Num l'
       /\ score scannedResult = Num s'
       /\ Z.abs (h' - h) <= 5 /\ Z.abs (l' - l) <= 5 /\ Z.abs (s' - s) <= 5.
Proof.
  assert (Hw : reachable scanned) by (apply run_reachable; constructor).
  assert (Hres : analysisResult (cells scanned) = Some scannedResult) by reflexivity.
  split; [exact Hw | split; [exact Hres |]].
  exact (shown_result_matches_breed scanned scannedResult Hw Hres).
Defined.

(** X8. The offered breeds all score 80 or more after the jitter, so the
    results screen only ever says Excellent or Good; Average and Poor are
    out of reach. *)
Theorem shown_label_excellent_or_good (w : World) (r : AnalysisResult) :
  reachable w -> analysisResult (cells w) = Some r ->
  exists s,
    score r = Num s /\ 80 <= s <= 97
    /\ (getScoreLabel s = "Excellent" \/ getScoreLabel s = "Good").
Proof.
  intros Hw Hres.
  destruct (reachable_result_built w r Hw Hres)
    as (Hkey & r1 & r2 & r3 & H1 & H2 & H3 & ->).
  destruct (finalResult_unclamped (selectedBreed (cells w)) r1 r2 r3 Hkey H1 H2 H3)
    as (base & h & l & s & _ & _ & _ & _ & (_ & _ & Bs) & (_ & _ & B3) & Hfinal).
  exists (s + variation r3).
  rewrite Hfinal; cbn [score].
  split; [reflexivity | split; [lia |]].
  unfold getScoreLabel.
  destruct (Z.geb_spec (s + variation r3) 90); [left; reflexivity |].
  destruct (Z.geb_spec (s + variation r3) 80); [right; reflexivity | lia].
Qed.

Lemma shown_label_excellent_or_good_witness :
  reachable scanned
  /\ analysisResult (cells scanned) = Some scannedResult
  /\ exists s,
       score scannedResult = Num s /\ 80 <= s <= 97
       /\ (getScoreLabel s = "Excellent" \/ getScoreLabel s = "Good").
Proof.
  assert (Hw : reachable scanned) by (apply run_reachable; constructor).
  assert (Hres : analysisResult (cells scanned) = Some scannedResult) by reflexivity.
  split; [exact Hw | split; [exact Hres |]].
  exact (shown_label_excellent_or_good scanned scannedResult Hw Hres).
Defined.

(** ** Timers and stages *)

(** X9. There is one pending timeout while the stage is Analyzing, closed
    over the selected breed, and none in the other stages: no timeout is
    left over to fire after a reset, and none is started twice. *)
Theorem one_timer_while_analyzing (w : World) :
  reachable w ->
  timers w = match scanStage (cells w) with
             | analyzing => [selectedBreed (cells w)]
             | _ => []
             end.
Proof.
  intros Hw.
  destruct (reachable_cycle_inv w Hw) as (_ & _ & Hcase).
  destruct (scanStage (cells w)).
  - exact (proj1 Hcase).
  - exact (proj1 Hcase).
  - exact (proj1 Hcase).
Qed.

Lemma one_timer_while_analyzing_witness :
  reachable underway
  /\ scanStage (cells underway) = analyzing
  /\ timers underway = ["murrah"].
Proof.
  assert (Hw : reachable underway) by (apply run_reachable; constructor).
  split; [exact Hw | split; [reflexivity |]].
  exact (one_timer_while_analyzing underway Hw).
Defined.

(** X10. The analysis cannot hang or fail: in the Analyzing stage the timeout
    is due, and when it fires, whatever the draws, the stage is Results, the
    result built for the selected breed is in place, and no timer is left. *)
Theorem analysis_completes (w : World) (r1 r2 r3 : Q) :
  reachable w -> scanStage (cells w) = analyzing ->
  is_draw r1 = true -> is_draw r2 = true -> is_draw r3 = true ->
  offered (Timeout r1 r2 r3) w = true
  /\ scanStage (cells (handle (Timeout r1 r2 r3) w)) = results
  /\ analysisResult (cells (handle (Timeout r1 r2 r3) w))
     = Some (finalResult (selectedBreed (cells w)) r1 r2 r3)
  /\ timers (handle (Timeout r1 r2 r3) w) = [].
Proof.
  intros Hw Hstage H1 H2 H3.
  destruct (reachable_cycle_inv w Hw) as (_ & _ & Hcase).
  rewrite Hstage in Hcase; destruct Hcase as (Hq & _).
  cbn [offered handle]; rewrite Hq, H1, H2, H3.
  split; [reflexivity |].
  rewrite analysisCallback_cells; cbn.
  split; [reflexivity | split; [reflexivity |]].
  rewrite Hq; reflexivity.
Qed.

Lemma analysis_completes_witness :
  (reachable underway /\ scanStage (cells underway) = analyzing
   /\ is_draw (1 # 3) = true)
  /\ offered (Timeout (1 # 3) (1 # 3) (1 # 3)) underway = true
  /\ scanStage (cells (handle (Timeout (1 # 3) (1 # 3) (1 # 3)) underway)) = results
  /\ analysisResult (cells (handle (Timeout (1 # 3) (1 # 3) (1 # 3)) underway))
     = Some (finalResult "murrah" (1 # 3) (1 # 3) (1 # 3))
  /\ timers (handle (Timeout (1 # 3) (1 # 3) (1 # 3)) underway) = [].
Proof.
  assert (Hw : reachable underway) by (apply run_reachable; constructor).
  split; [split; [exact Hw | split; reflexivity] |].
  exact (analysis_completes underway (1 # 3) (1 # 3) (1 # 3)
           Hw eq_refl eq_refl eq_refl eq_refl).
Defined.

(** X11. The stage only moves round the cycle: an event leaves it as it is or
    takes it from Upload to Analyzing, from Analyzing to Results, or from
    Results back to Upload. *)
Theorem stage_moves_round_the_cycle (w w' : World) :
  reachable w -> step w w' ->
  scanStage (cells w') = scanStage (cells w)
  \/ (scanStage (cells w) = upload /\ scanStage (cells w') = analyzing)
  \/ (scanStage (cells w) = analyzing /\ scanStage (cells w') = results)
  \/ (scanStage (cells w) = results /\ scanStage (cells w') = upload).
Proof.
  intros Hw [e He].
  destruct (reachable_cycle_inv w Hw) as (_ & _ & Hcase).
  pose proof (offered_upload_stage e w He) as Hup.
  destruct e as [v | files | files | | | | r1 r2 r3 | |]; cbn [handle].
  - left; reflexivity.
  - left; destruct files as [| file rest]; [reflexivity |].
    destruct (handleFileSelect_outcome file w) as [(_ & Es & _) _]; exact Es.
  - left; destruct files as [| file rest]; [reflexivity |].
    destruct (handleDrop_outcome file rest w) as (_ & Es & _); exact Es.
  - left; reflexivity.
  - left; reflexivity.
  - right; left; split; [exact Hup |].
    cbn [offered] in He; apply andb_true_iff in He as [_ Hset].
    apply negb_true_iff in Hset.
    unfold startAnalysis; rewrite Hset; reflexivity.
  - right; right; left.
    cbn [offered] in He.
    repeat (apply andb_true_iff in He as [He _]).
    destruct (scanStage (cells w)).
    + destruct Hcase as [E _]; rewrite E in He; discriminate He.
    + destruct Hcase as [E _]; rewrite E.
      split; [reflexivity |].
      rewrite analysisCallback_cells; reflexivity.
    + destruct Hcase as [E _]; rewrite E in He; discriminate He.
  - right; right; right.
    cbn [offered] in He; apply andb_true_iff in He as [Hstage _].
    apply stage_eqb_eq in Hstage.
    split; [exact Hstage |].
    unfold resetScanner.
    destruct (truthy_string (previewUrl (cells w))); reflexivity.
  - left; unfold saveResults.
    destruct (is_null (analysisResult (cells w))); reflexivity.
Qed.

Lemma stage_moves_round_the_cycle_witness :
  (reachable underway /\ step underway (handle (Timeout (1 # 3) (1 # 3) (1 # 3)) underway))
  /\ scanStage (cells underway) = analyzing
  /\ scanStage (cells (handle (Timeout (1 # 3) (1 # 3) (1 # 3)) underway)) = results.
Proof.
  assert (Hw : reachable underway) by (apply run_reachable; constructor).
  assert (Hs : step underway (handle (Timeout (1 # 3) (1 # 3) (1 # 3)) underway))
    by (constructor; reflexivity).
  split; [split; assumption |].
  destruct (stage_moves_round_the_cycle underway _ Hw Hs)
    as [Hsame | [[Hup _] | [Hmove | [Hres _]]]].
  - discriminate Hsame.
  - discriminate Hup.
  - exact Hmove.
  - discriminate Hres.
Defined.

(** ** What is on the screen *)

Lemma is_breed_label (key : string) :
  is_breed key = true ->
  find (fun b => String.eqb (value b) key) breeds <> None.
Proof.
  intros H; apply is_breed_own in H; simpl in H.
  destruct H as [<- | [<- | [<- | [<- | []]]]]; discriminate.
Qed.

Lemma is_null_iff_empty (w : World) :
  cycle_inv w ->
  selectedFile (cells w) = None <-> previewUrl (cells w) = "".
Proof.
  intros (Hfile & _).
  destruct (selectedFile (cells w)), (previewUrl (cells w));
    cbn in Hfile; split; intros H; congruence.
Qed.

(** X12. A file is held exactly when a preview URL is held: the two cells are
    set together by an accepted upload and cleared together by a reset. *)
Theorem file_iff_preview (w : World) :
  reachable w ->
  selectedFile (cells w) = None <-> previewUrl (cells w) = "".
Proof.
  intros Hw; apply is_null_iff_empty, reachable_cycle_inv, Hw.
Qed.

Lemma file_iff_preview_witness :
  reachable replaced
  /\ (selectedFile (cells replaced) = None <-> previewUrl (cells replaced) = "").
Proof.
  assert (Hw : reachable replaced) by (apply run_reachable; constructor).
  split; [exact Hw | exact (file_iff_preview replaced Hw)].
Defined.

(** X13. The screen is never bare.  The upload screen shows the preview
    exactly when a file is held; the analyzing screen always has the image
    and the label of the breed; the results screen always has an image
    source. *)
Theorem screen_is_complete (w : World) :
  reachable w ->
  match screen (cells w) with
  | UploadScreen image disabled =>
      (image = None <-> selectedFile (cells w) = None)
      /\ (disabled = false ->
          selectedFile (cells w) <> None /\ is_breed (selectedBreed (cells w)) = true)
  | AnalyzingScreen image breedLabel => image <> None /\ breedLabel <> None
  | ResultsScreen src shown => src <> ""
  | HeaderOnly => False
  end.
Proof.
  intros Hw.
  pose proof (reachable_cycle_inv w Hw) as Hinv.
  pose proof (is_null_iff_empty w Hinv) as Hiff.
  destruct Hinv as (_ & Hbreed & Hcase).
  assert (Hset : startDisabled (cells w) = false ->
                 selectedFile (cells w) <> None
                 /\ is_breed (selectedBreed (cells w)) = true).
  { unfold startDisabled; intros H.
    apply orb_false_iff in H as [Hf Hb].
    split; [destruct (selectedFile (cells w)); [discriminate | discriminate Hf] |].
    destruct Hbreed as [E | Hk]; [rewrite E in Hb; discriminate Hb | exact Hk]. }
  assert (Himg : selectedFile (cells w) <> None -> previewImage (cells w) <> None).
  { intros Hf; unfold previewImage.
    destruct (previewUrl (cells w)) eqn:E; [| discriminate].
    contradiction Hf; apply Hiff; reflexivity. }
  unfold screen; destruct (scanStage (cells w)).
  - split; [| exact Hset].
    rewrite Hiff; unfold previewImage.
    destruct (previewUrl (cells w)); cbn; split; congruence.
  - destruct Hcase as (_ & _ & Hs); destruct (Hset Hs) as [Hf Hk].
    split; [exact (Himg Hf) |].
    unfold analyzingLabel.
    pose proof (is_breed_label _ Hk) as Hfind.
    destruct (find _ breeds); [discriminate | contradiction Hfind; reflexivity].
  - destruct Hcase as (_ & Hs & r & -> & _); destruct (Hset Hs) as [Hf _].
    intros E; apply Hf, Hiff, E.
Qed.

Lemma screen_is_complete_witness :
  reachable underway
  /\ screen (cells underway) = AnalyzingScreen (Some "blob:0") (Some "Murrah Buffalo")
  /\ Some "blob:0" <> None /\ Some "Murrah Buffalo" <> None.
Proof.
  assert (Hw : reachable underway) by (apply run_reachable; constructor).
  split; [exact Hw | split; [reflexivity |]].
  exact (screen_is_complete underway Hw).
Defined.

(** X14. The start button is disabled exactly when the start action would do
    nothing: the attribute of the button and the guard of the handler
    agree. *)
Theorem start_disabled_iff_inert (w : World) :
  startDisabled (cells w) = true <-> exec (startAnalysis (cells w)) w = w.
Proof.
  unfold startAnalysis, startDisabled.
  destruct (is_null (selectedFile (cells w))
            || negb (truthy_string (selectedBreed (cells w)))).
  - split; reflexivity.
  - split; [discriminate |].
    intros H; apply (f_equal timers) in H; cbn in H.
    apply (f_equal (@List.length string)) in H.
    rewrite length_app in H; simpl in H; lia.
Qed.

(** ** Releasing preview URLs *)

Lemma count_absent (url : string) (l : list string) :
  ~ In url l -> List.length (filter (String.eqb url) l) = 0%nat.
Proof.
  induction l as [| x l IH]; intros Hnot; [reflexivity |].
  simpl; destruct (String.eqb_spec url x) as [-> | _].
  - contradiction Hnot; left; reflexivity.
  - apply IH; intros H; apply Hnot; right; exact H.
Qed.

Lemma count_nodup (url : string) (l : list string) :
  NoDup l -> In url l -> List.length (filter (String.eqb url) l) = 1%nat.
Proof.
  induction 1 as [| x l Hx Hl IH]; intros Hin; [contradiction Hin |].
  simpl; destruct (String.eqb_spec url x) as [-> | Hne].
  - simpl; rewrite (count_absent x l Hx); reflexivity.
  - destruct Hin as [E | Hin]; [congruence | exact (IH Hin)].
Qed.

(** X15. The component only revokes URLs it has created itself, and it never
    revokes one a second time: the reset that revokes the preview URL also
    empties the cell that held it. *)
Theorem revokes_own_urls_once (w : World) (url : string) :
  reachable w -> In url (revoked w) ->
  In url (created w) /\ revocations url w = 1%nat.
Proof.
  intros Hw Hin.
  destruct (reachable_urls_inv w Hw) as (_ & _ & Hincl & Hrev & _).
  split; [exact (Hincl url Hin) |].
  exact (count_nodup url (revoked w) Hrev Hin).
Qed.

Lemma revokes_own_urls_once_witness :
  (reachable rescanned /\ In "blob:1" (revoked rescanned))
  /\ revoked rescanned = ["blob:1"; "blob:0"]
  /\ In "blob:1" (created rescanned)
  /\ revocations "blob:1" rescanned = 1%nat.
Proof.
  assert (Hw : reachable rescanned)
    by (apply run_reachable, run_reachable; constructor).
  assert (Hin : In "blob:1" (revoked rescanned)) by (vm_compute; left; reflexivity).
  split; [split; assumption | split; [vm_compute; reflexivity |]].
  exact (revokes_own_urls_once rescanned "blob:1" Hw Hin).
Defined.

(** X16. The preview that is shown is always backed by a live URL: one the
    component created and has not revoked. *)
Theorem shown_preview_is_live (w : World) :
  reachable w -> previewUrl (cells w) <> "" ->
  In (previewUrl (cells w)) (created w)
  /\ revocations (previewUrl (cells w)) w = 0%nat.
Proof.
  intros Hw Hshown.
  destruct (reachable_urls_inv w Hw) as (_ & Hlive & _).
  assert (Ht : truthy_string (previewUrl (cells w)) = true)
    by (destruct (previewUrl (cells w)); [contradiction Hshown |]; reflexivity).
  destruct (Hlive Ht) as [Hin Hnot].
  split; [exact Hin | exact (count_absent _ _ Hnot)].
Qed.

Lemma shown_preview_is_live_witness :
  (reachable replaced /\ previewUrl (cells replaced) <> "")
  /\ previewUrl (cells replaced) = "blob:1"
  /\ In (previewUrl (cells replaced)) (created replaced)
  /\ revocations (previewUrl (cells replaced)) replaced = 0%nat.
Proof.
  assert (Hw : reachable replaced) by (apply run_reachable; constructor).
  assert (Hs : previewUrl (cells replaced) <> "") by discriminate.
  split; [split; assumption | split; [reflexivity |]].
  exact (shown_preview_is_live replaced Hw Hs).
Defined.

(** ** Inputs during a scan *)

(** X17. Once the analysis has started, breed, file and preview stay as they
    are until the reset: no event that keeps the component out of the Upload
    stage touches them. *)
Theorem inputs_frozen_after_start (w w' : World) :
  step w w' ->
  scanStage (cells w) <> upload -> scanStage (cells w') <> upload ->
  selectedBreed (cells w') = selectedBreed (cells w)
  /\ selectedFile (cells w') = selectedFile (cells w)
  /\ previewUrl (cells w') = previewUrl (cells w).
Proof.
  intros [e He] Hfrom Hto.
  pose proof (offered_upload_stage e w He) as Hup.
  destruct e as [v | files | files | | | | r1 r2 r3 | |];
    try contradiction (Hfrom Hup); cbn [handle] in Hto |- *.
  - destruct (timers w) as [| key rest]; [repeat split |].
    rewrite analysisCallback_cells; repeat split.
  - contradiction Hto; unfold resetScanner.
    destruct (truthy_string (previewUrl (cells w))); reflexivity.
  - unfold saveResults.
    destruct (is_null (analysisResult (cells w))); repeat split.
Qed.

Lemma inputs_frozen_after_start_witness :
  (step underway (handle (Timeout (1 # 3) (1 # 3) (1 # 3)) underway)
   /\ scanStage (cells underway) <> upload
   /\ scanStage (cells (handle (Timeout (1 # 3) (1 # 3) (1 # 3)) underway)) <> upload)
  /\ selectedBreed (cells (handle (Timeout (1 # 3) (1 # 3) (1 # 3)) underway)) = "murrah"
  /\ selectedFile (cells (handle (Timeout (1 # 3) (1 # 3) (1 # 3)) underway)) = Some calf
  /\ previewUrl (cells (handle (Timeout (1 # 3) (1 # 3) (1 # 3)) underway)) = "blob:0".
Proof.
  assert (Hs : step underway (handle (Timeout (1 # 3) (1 # 3) (1 # 3)) underway))
    by (constructor; reflexivity).
  assert (Hfrom : scanStage (cells underway) <> upload) by discriminate.
  assert (Hto : scanStage (cells (handle (Timeout (1 # 3) (1 # 3) (1 # 3)) underway))
                <> upload) by discriminate.
  split; [split; [exact Hs | split; [exact Hfrom | exact Hto]] |].
  exact (inputs_frozen_after_start underway _ Hs Hfrom Hto).
Defined.
